(** * View analytics and premium-payment lifecycle of the classifieds backend

    A shallow embedding of four route handlers of [server/routes.ts]
    together with the rows of [db/schema.ts] they touch:

    - [PUT  /api/admin/premium-payments/:id]   (payment status transition)
    - [POST /api/premium-payments]             (payment submission)
    - [POST /api/listings/:id/view]            (view tracking)
    - [GET  /api/listings/:id/analytics]       (analytics report)

    Tables are lists of rows in storage order.  Every [await db...]
    statement may throw; the handlers' [try]/[catch] turns any exception
    into an HTTP 500 response.  Timestamps are integers, milliseconds since
    the epoch; a [Date] holds one of at most 8.64e15 in size or is
    invalid. *)

From Stdlib Require Import ZArith List String Bool Lia.
From Stdlib Require Import Permutation Sorted.
Import ListNotations.
Local Open Scope string_scope.
Local Open Scope Z_scope.

(** ** Time values and the calendar arithmetic of [Date]

    [Day], [TimeWithinDay], [DaysInYear], [DayFromYear], [YearFromTime],
    [MonthFromTime], [DateFromTime], [MakeDay] and [MakeDate] are the
    operations by which ECMAScript defines [Date.prototype.getDate] and
    [Date.prototype.setDate]. *)

Module Time.

Definition msPerSecond : Z := 1000.
Definition msPerHour : Z := 3600000.
Definition msPerDay : Z := 86400000.

(** [INTERVAL '1 hour'], [INTERVAL '24 hours'], [INTERVAL '7 days'];
    the database session runs in UTC, where a day is 24 hours. *)
Definition interval_1_hour : Z := msPerHour.
Definition interval_24_hours : Z := 24 * msPerHour.
Definition interval_7_days : Z := 7 * msPerDay.

Definition Day (t : Z) : Z := t / msPerDay.
Definition TimeWithinDay (t : Z) : Z := t mod msPerDay.

Definition DaysInYear (y : Z) : Z :=
  if negb (y mod 4 =? 0) then 365
  else if negb (y mod 100 =? 0) then 366
  else if negb (y mod 400 =? 0) then 365
  else 366.

Definition DayFromYear (y : Z) : Z :=
  365 * (y - 1970) + (y - 1969) / 4 - (y - 1901) / 100 + (y - 1601) / 400.

Definition TimeFromYear (y : Z) : Z := msPerDay * DayFromYear y.

(** The largest [y] with [TimeFromYear y <= t]: an estimate from the mean
    length of a year, moved by one where it misses. *)
Definition YearFromTime (t : Z) : Z :=
  let d := Day t in
  let y := 1970 + (d * 400) / 146097 in
  if d <? DayFromYear y then y - 1
  else if DayFromYear (y + 1) <=? d then y + 1
  else y.

Definition leapDay (y : Z) : Z := if DaysInYear y =? 365 then 0 else 1.
Definition InLeapYear (t : Z) : Z := leapDay (YearFromTime t).
Definition DayWithinYear (t : Z) : Z := Day t - DayFromYear (YearFromTime t).

(** Day within the year on which month [m] (0 = January) starts. *)
Definition monthStart (m leap : Z) : Z :=
  match m with
  | 0 => 0
  | 1 => 31
  | 2 => 59 + leap
  | 3 => 90 + leap
  | 4 => 120 + leap
  | 5 => 151 + leap
  | 6 => 181 + leap
  | 7 => 212 + leap
  | 8 => 243 + leap
  | 9 => 273 + leap
  | 10 => 304 + leap
  | _ => 334 + leap
  end.

Definition MonthFromTime (t : Z) : Z :=
  let d := DayWithinYear t in
  let leap := InLeapYear t in
  if d <? 31 then 0
  else if d <? 59 + leap then 1
  else if d <? 90 + leap then 2
  else if d <? 120 + leap then 3
  else if d <? 151 + leap then 4
  else if d <? 181 + leap then 5
  else if d <? 212 + leap then 6
  else if d <? 243 + leap then 7
  else if d <? 273 + leap then 8
  else if d <? 304 + leap then 9
  else if d <? 334 + leap then 10
  else 11.

Definition DateFromTime (t : Z) : Z :=
  DayWithinYear t - monthStart (MonthFromTime t) (InLeapYear t) + 1.

Definition MakeDay (year month date : Z) : Z :=
  let ym := year + month / 12 in
  let mn := month mod 12 in
  DayFromYear ym + monthStart mn (leapDay ym) + date - 1.

Definition MakeDate (day time : Z) : Z := day * msPerDay + time.

(** A time value a [Date] can hold is at most 8.64e15 ms away from the
    epoch; [None] is [NaN]. *)
Definition maxTime : Z := 8640000000000000.

Definition TimeClip (time : Z) : option Z :=
  if maxTime <? Z.abs time then None else Some time.

Definition representable (time : Z) : Prop := Z.abs time <= maxTime.

Section LocalZone.

(** Offset of the server's local time zone from UTC, in milliseconds,
    at a time value that is UTC ([true]) or local ([false]). *)
Variable LocalTZA : Z -> bool -> Z.

Definition LocalTime (t : Z) : Z := t + LocalTZA t true.
Definition UTC (t : Z) : Z := t - LocalTZA t false.

(** [d.getDate()] and the time value of [d] after [d.setDate(date)],
    for a valid [d]; [None] is the Invalid Date. *)
Definition getDate (d : Z) : Z := DateFromTime (LocalTime d).

Definition setDate (d date : Z) : option Z :=
  let t := LocalTime d in
  TimeClip (UTC (MakeDate (MakeDay (YearFromTime t) (MonthFromTime t) date)
                          (TimeWithinDay t))).

(** The spec's phrase "[t] plus [n] calendar days": the local calendar
    day moves forward by [n], the local time of day stays. *)
Definition plusCalendarDays (t n : Z) : Z :=
  let l := LocalTime t in
  UTC (MakeDate (Day l + n) (TimeWithinDay l)).

End LocalZone.

(** A server whose local time zone is UTC. *)
Definition utcZone : Z -> bool -> Z := fun _ _ => 0.

(** Postgres' cast of the numeric quotient [a / b] to [integer], for
    [b > 0]: the nearest integer, a tie going away from zero. *)
Definition pg_round_div (a b : Z) : Z :=
  if 0 <=? a then (2 * a + b) / (2 * b)
  else - ((2 * (- a) + b) / (2 * b)).

End Time.

(** ** Rows of [db/schema.ts]

    A column without [.notNull()] is an [option]; columns no handler below
    reads or writes are left out. *)

Module User.
Record t := mk { id : Z; isAdmin : option bool }.
End User.

Module Listing.
Record t := mk {
  id : Z;
  title : string;
  userId : option Z;
  isPremium : option bool;
  premiumTierId : option Z;
  premiumExpiresAt : option Z
}.

(** [.set({ isPremium: true, premiumTierId, premiumExpiresAt })] *)
Definition setPremium (tier expires : Z) (l : t) : t :=
  mk (id l) (title l) (userId l) (Some true) (Some tier) (Some expires).
End Listing.

Module PremiumTier.
Record t := mk { id : Z; name : string; price : Z; durationDays : Z }.
End PremiumTier.

Module PremiumPayment.
Record t := mk {
  id : Z;
  listingId : Z;
  userId : Z;
  tierId : Z;
  paymentProof : string;
  status : option string;
  amount : Z;
  createdAt : option Z;
  expiresAt : option Z
}.

(** [.set({ status })] and [.set({ expiresAt })] *)
Definition setStatus (s : string) (p : t) : t :=
  mk (id p) (listingId p) (userId p) (tierId p) (paymentProof p) (Some s)
     (amount p) (createdAt p) (expiresAt p).

Definition setExpiresAt (e : Z) (p : t) : t :=
  mk (id p) (listingId p) (userId p) (tierId p) (paymentProof p) (status p)
     (amount p) (createdAt p) (Some e).
End PremiumPayment.

Module GeoLocation.
Record t := mk {
  country : option string;
  city : option string;
  region : option string
}.
Definition empty : t := mk None None None.
End GeoLocation.

Module ListingView.
Record t := mk {
  id : Z;
  listingId : Z;
  viewerId : option Z;
  ipAddress : string;
  userAgent : option string;
  geoLocation : option GeoLocation.t;
  sessionDuration : option Z;
  viewStartTime : option Z;
  viewEndTime : option Z;
  isReturn : option bool;
  createdAt : option Z
}.

(** [.set({ viewEndTime, sessionDuration })] *)
Definition setSession (e : Z) (dur : option Z) (v : t) : t :=
  mk (id v) (listingId v) (viewerId v) (ipAddress v) (userAgent v)
     (geoLocation v) dur (viewStartTime v) (Some e) (isReturn v)
     (createdAt v).
End ListingView.

Module Message.
Record t := mk { id : Z; listingId : option Z }.
End Message.

(** The datastore: the five tables and the identity sequences of the two
    tables the handlers insert into. *)
Record DB := mkDB {
  listings : list Listing.t;
  premiumTiers : list PremiumTier.t;
  premiumPayments : list PremiumPayment.t;
  listingViews : list ListingView.t;
  messages : list Message.t;
  premiumPayments_seq : Z;
  listingViews_seq : Z
}.

Definition withListings (d : DB) (ls : list Listing.t) : DB :=
  mkDB ls (premiumTiers d) (premiumPayments d) (listingViews d) (messages d)
       (premiumPayments_seq d) (listingViews_seq d).

Definition withPayments (d : DB) (ps : list PremiumPayment.t) (next : Z) : DB :=
  mkDB (listings d) (premiumTiers d) ps (listingViews d) (messages d)
       next (listingViews_seq d).

Definition withViews (d : DB) (vs : list ListingView.t) (next : Z) : DB :=
  mkDB (listings d) (premiumTiers d) (premiumPayments d) vs (messages d)
       (premiumPayments_seq d) next.

(** ** Requests that throw

    A handler body runs in a state-and-exception monad over the datastore.
    The state also holds a fault plan: [Some k] makes the statement with
    index [k] (counted from 0 within the request) throw before it touches
    the datastore, [None] lets all of them run. *)

Inductive Exception :=
| DbError | TypeError | ReferenceError | RangeError | UploadError.

Record World := mkWorld { fault : option nat; db : DB }.

Definition M (A : Type) : Type := World -> (Exception + A) * World.

Definition ret {A} (a : A) : M A := fun w => (inr a, w).

Definition bind {A B} (m : M A) (k : A -> M B) : M B :=
  fun w =>
    match m w with
    | (inl e, w') => (inl e, w')
    | (inr a, w') => k a w'
    end.

Definition throw {A} (e : Exception) : M A := fun w => (inl e, w).

Notation "x <- m ;; k" := (bind m (fun x => k))
  (at level 61, m at next level, right associativity).
Notation "m ;;; k" := (bind m (fun _ => k))
  (at level 61, right associativity).

Definition tick (f : option nat) : option nat :=
  match f with
  | Some (S k) => Some k
  | _ => None
  end.

(** One awaited statement [q]; [q] itself throws when the datastore
    rejects it (a key violation), and leaves the datastore as the rejected
    statement left it. *)
Definition await {A} (q : DB -> (Exception + A) * DB) : M A :=
  fun w =>
    match fault w with
    | Some O => (inl DbError, mkWorld None (db w))
    | f => let (r, d') := q (db w) in (r, mkWorld (tick f) d')
    end.

(** Evaluating an identifier of the module: a [ReferenceError] when no
    import or declaration binds it. *)
Definition identifier {A} (binding : option A) : M A :=
  match binding with
  | Some a => ret a
  | None => throw ReferenceError
  end.

(** A [Date] as the parameter of a statement: it is written with
    [toISOString], which throws a [RangeError] on the Invalid Date. *)
Definition timestampParam (date : option Z) : M Z :=
  match date with
  | Some t => ret t
  | None => throw RangeError
  end.

(** Reading a property of [x] where [x] may be [undefined]. *)
Definition deref {A} (x : option A) : M A :=
  match x with
  | Some a => ret a
  | None => throw TypeError
  end.

(** [!!x] for a nullable boolean. *)
Definition truthy (b : option bool) : bool :=
  match b with
  | Some true => true
  | _ => false
  end.

(** ** Responses *)

Record ViewTotals := mkTotals {
  total : Z;
  unique : Z;
  returningVisitors : Z;
  avgDuration : option Z
}.

(** [hourlyViews] rows are [(hour, count)] with [hour] the text ["HH:00"];
    [dailyViews] rows are [(date, count)] with the date as a day number;
    [geoDistribution] rows are [(country, count)]. *)
Record AnalyticsReport := mkReport {
  views : ViewTotals;
  hourlyViews : list (string * Z);
  dailyViews : list (Z * Z);
  geoDistribution : list (string * Z);
  messageCount : Z
}.

Inductive Body :=
| JMessage (message : string)
| JFailure (message : string) (error : Exception)
| JPayment (payment : option PremiumPayment.t)
| JView (view : option ListingView.t)
| JReport (report : AnalyticsReport).

Record Response := mkResponse { status : Z; body : Body }.

Definition Handler : Type := World -> Response * World.

(** [try { ... } catch (error) { res.status(500).json({ message, error }) }] *)
Definition tryCatch (m : M Response) (message : string) : Handler :=
  fun w =>
    match m w with
    | (inr r, w') => (r, w')
    | (inl e, w') => (mkResponse 500 (JFailure message e), w')
    end.

Definition respond (r : Response) : Handler := fun w => (r, w).

(** The middleware of protected routes. *)
Definition requireAuth (user : option User.t) (next : User.t -> Handler)
  : Handler :=
  match user with
  | None => respond (mkResponse 401 (JMessage "Unauthorized"))
  | Some u => next u
  end.

(** ** Statements *)

Module Sql.

(** [UPDATE ... SET ... WHERE c] and its [RETURNING] rows. *)
Definition updateWhere {A} (c : A -> bool) (f : A -> A) (rows : list A)
  : list A :=
  map (fun r => if c r then f r else r) rows.

Definition returning {A} (c : A -> bool) (f : A -> A) (rows : list A)
  : list A :=
  map f (filter c rows).

(** [SELECT ... WHERE c LIMIT 1]: of the matching rows, the first in
    storage order.  The routes look a row up by its key, where at most one
    row matches, or only ask whether a row came back. *)
Definition selectLimit1 {A} (c : A -> bool) (rows : list A) : list A :=
  firstn 1 (filter c rows).

(** [col > x] and [col < x] on a nullable timestamp: a null compares to
    null, and the row is not selected. *)
Definition tsAfter (col : option Z) (x : Z) : bool :=
  match col with
  | Some c => x <? c
  | None => false
  end.

Definition tsBefore (col : option Z) (x : Z) : bool :=
  match col with
  | Some c => c <? x
  | None => false
  end.

Definition hasId {A} (id : A -> Z) (k : Z) (rows : list A) : bool :=
  existsb (fun r => id r =? k) rows.

(** [count(distinct col)] over text. *)
Definition countDistinct (xs : list string) : Z :=
  Z.of_nat (List.length (nodup string_dec xs)).

Fixpoint somes {A} (xs : list (option A)) : list A :=
  match xs with
  | [] => []
  | Some a :: r => a :: somes r
  | None :: r => somes r
  end.

Definition sum (xs : list Z) : Z := fold_right Z.add 0 xs.

(** [avg(col)::int]: the aggregate skips nulls and is null when nothing
    is left; the cast rounds. *)
Definition avgInt (col : list (option Z)) : option Z :=
  match somes col with
  | [] => None
  | ds => Some (Time.pg_round_div (sum ds) (Z.of_nat (List.length ds)))
  end.

(** [GROUP BY key] with [count( * )]: one row per key, in order of first
    appearance. *)
Fixpoint bump {K} (eqb : K -> K -> bool) (k : K) (acc : list (K * Z))
  : list (K * Z) :=
  match acc with
  | [] => [(k, 1)]
  | (k', c) :: r =>
      if eqb k k' then (k', c + 1) :: r else (k', c) :: bump eqb k r
  end.

Definition groupCount {K} (eqb : K -> K -> bool) (keys : list K)
  : list (K * Z) :=
  fold_left (fun acc k => bump eqb k acc) keys [].

(** [ORDER BY key] on integer keys. *)
Fixpoint insertByKey (x : Z * Z) (l : list (Z * Z)) : list (Z * Z) :=
  match l with
  | [] => [x]
  | y :: r => if fst x <=? fst y then x :: l else y :: insertByKey x r
  end.

Definition orderByKey (l : list (Z * Z)) : list (Z * Z) :=
  fold_right insertByKey [] l.

End Sql.

(** ** The route handlers of [server/routes.ts] *)

Section Server.

(** The server's time zone and [uploadFile] of [server/storage.ts]
    ([None] when the upload throws). *)
Variable LocalTZA : Z -> bool -> Z.
Variable uploadFile : string -> option string.

(** *** [PUT /api/admin/premium-payments/:id] *)

Definition isPayment (paymentId : Z) (p : PremiumPayment.t) : bool :=
  PremiumPayment.id p =? paymentId.

Definition updatePaymentStatus (paymentId : Z) (status : string) (d : DB)
  : (Exception + list PremiumPayment.t) * DB :=
  let c := isPayment paymentId in
  let f := PremiumPayment.setStatus status in
  (inr (Sql.returning c f (premiumPayments d)),
   withPayments d (Sql.updateWhere c f (premiumPayments d))
                (premiumPayments_seq d)).

Definition selectTier (tierId : Z) (d : DB)
  : (Exception + list PremiumTier.t) * DB :=
  (inr (Sql.selectLimit1 (fun t => PremiumTier.id t =? tierId)
                         (premiumTiers d)), d).

Definition updateListingPremium (listingId tierId expiresAt : Z) (d : DB)
  : (Exception + unit) * DB :=
  (inr tt, withListings d
             (Sql.updateWhere (fun l => Listing.id l =? listingId)
                              (Listing.setPremium tierId expiresAt)
                              (listings d))).

Definition updatePaymentExpiry (paymentId expiresAt : Z) (d : DB)
  : (Exception + unit) * DB :=
  (inr tt, withPayments d
             (Sql.updateWhere (isPayment paymentId)
                              (PremiumPayment.setExpiresAt expiresAt)
                              (premiumPayments d))
             (premiumPayments_seq d)).

(** [new Date()] followed by [setDate(getDate() + durationDays)]: the
    time value of [expiresAt], or [None] when it became the Invalid Date. *)
Definition expiryDate (now durationDays : Z) : option Z :=
  Time.setDate LocalTZA now (Time.getDate LocalTZA now + durationDays).

Definition putAdminPremiumPayment
    (user : option User.t) (id : Z) (status : string) (now : Z) : Handler :=
  requireAuth user (fun u =>
    if negb (truthy (User.isAdmin u)) then
      respond (mkResponse 403 (JMessage "Unauthorized"))
    else
      tryCatch
        (let paymentId := id in
         rows <- await (updatePaymentStatus paymentId status) ;;
         let payment := hd_error rows in
         (if String.eqb status "approved" then
            p <- deref payment ;;
            tiers <- await (selectTier (PremiumPayment.tierId p)) ;;
            tier <- deref (hd_error tiers) ;;
            let expiresAt :=
              expiryDate now (PremiumTier.durationDays tier) in
            premiumExpiresAt <- timestampParam expiresAt ;;
            await (updateListingPremium (PremiumPayment.listingId p)
                                        (PremiumPayment.tierId p)
                                        premiumExpiresAt) ;;;
            expires <- timestampParam expiresAt ;;
            await (updatePaymentExpiry (PremiumPayment.id p) expires) ;;;
            ret tt
          else ret tt) ;;;
         ret (mkResponse 200 (JPayment payment)))
        "Failed to update payment status").

(** *** [POST /api/premium-payments] *)

(** The insert takes the next identity value, [status] as given,
    [createdAt] from [defaultNow()] and no [expiresAt]; the primary key
    and the references to [listings] and [premiumTiers] are checked.  A
    rejected insert has taken its identity value all the same. *)
Definition insertPayment (listingId userId tierId : Z) (proof : string)
    (amount now : Z) (d : DB)
  : (Exception + list PremiumPayment.t) * DB :=
  let row :=
    PremiumPayment.mk (premiumPayments_seq d) listingId userId tierId proof
                      (Some "pending") amount (Some now) None in
  if Sql.hasId PremiumPayment.id (PremiumPayment.id row) (premiumPayments d)
     || negb (Sql.hasId Listing.id listingId (listings d))
     || negb (Sql.hasId PremiumTier.id tierId (premiumTiers d))
  then (inl DbError,
        withPayments d (premiumPayments d) (premiumPayments_seq d + 1))
  else (inr [row],
        withPayments d (premiumPayments d ++ [row])
                     (premiumPayments_seq d + 1)).

Definition postPremiumPayment
    (user : option User.t) (file : option string) (listingId tierId : Z)
    (now : Z) : Handler :=
  requireAuth user (fun u =>
    tryCatch
      (match file with
       | None => ret (mkResponse 400 (JMessage "Payment proof is required"))
       | Some f =>
           publicUrl <- match uploadFile f with
                        | Some url => ret url
                        | None => throw UploadError
                        end ;;
           tiers <- await (selectTier tierId) ;;
           tier <- deref (hd_error tiers) ;;
           rows <- await (insertPayment listingId (User.id u) tierId
                                        publicUrl (PremiumTier.price tier)
                                        now) ;;
           ret (mkResponse 200 (JPayment (hd_error rows)))
       end)
      "Failed to submit payment proof").

(** *** [POST /api/listings/:id/view] *)

Definition sameVisitor (listingId : Z) (ipAddress : string)
    (v : ListingView.t) : bool :=
  (ListingView.listingId v =? listingId)
  && String.eqb (ListingView.ipAddress v) ipAddress.

(** Viewed more than 24 hours and less than 7 days ago. *)
Definition isPreviousView (listingId : Z) (ipAddress : string) (now : Z)
    (v : ListingView.t) : bool :=
  sameVisitor listingId ipAddress v
  && Sql.tsAfter (ListingView.createdAt v) (now - Time.interval_7_days)
  && Sql.tsBefore (ListingView.createdAt v) (now - Time.interval_24_hours).

(** Viewed in the last hour. *)
Definition isRecentView (listingId : Z) (ipAddress : string) (now : Z)
    (v : ListingView.t) : bool :=
  sameVisitor listingId ipAddress v
  && Sql.tsAfter (ListingView.createdAt v) (now - Time.interval_1_hour).

Definition selectView (c : ListingView.t -> bool) (d : DB)
  : (Exception + list ListingView.t) * DB :=
  (inr (Sql.selectLimit1 c (listingViews d)), d).

(** [EXTRACT(EPOCH FROM (NOW() - view_start_time))::integer] *)
Definition sessionSeconds (now : Z) (v : ListingView.t) : option Z :=
  option_map (fun s => Time.pg_round_div (now - s) Time.msPerSecond)
             (ListingView.viewStartTime v).

Definition updateViewSession (viewId now : Z) (d : DB)
  : (Exception + unit) * DB :=
  (inr tt, withViews d
             (Sql.updateWhere
                (fun v => ListingView.id v =? viewId)
                (fun v => ListingView.setSession now (sessionSeconds now v) v)
                (listingViews d))
             (listingViews_seq d)).

Definition insertView (listingId : Z) (viewerId : option Z)
    (ipAddress : string) (userAgent : option string)
    (geoLocation : GeoLocation.t) (isReturn : bool) (now : Z) (d : DB)
  : (Exception + list ListingView.t) * DB :=
  let row :=
    ListingView.mk (listingViews_seq d) listingId viewerId ipAddress
                   userAgent (Some geoLocation) None (Some now) None
                   (Some isReturn) (Some now) in
  if Sql.hasId ListingView.id (ListingView.id row) (listingViews d)
     || negb (Sql.hasId Listing.id listingId (listings d))
  then (inl DbError, withViews d (listingViews d) (listingViews_seq d + 1))
  else (inr [row],
        withViews d (listingViews d ++ [row]) (listingViews_seq d + 1)).

Definition isSome {A} (x : option A) : bool :=
  match x with
  | Some _ => true
  | None => false
  end.

(** [routes.ts] uses the name [geoip] in this handler and nowhere imports
    or declares it.  The handler is written out in full below; what follows
    [geoip.lookup] is what it would run with the name bound. *)
Definition geoip : option (string -> option GeoLocation.t) := None.

Definition postListingView
    (user : option User.t) (id : Z) (ip : string)
    (userAgent : option string) (now : Z) : Handler :=
  tryCatch
    (let listingId := id in
     let viewerId := option_map User.id user in
     let ipAddress := ip in
     lookup <- identifier geoip ;;
     let geoLocation :=
       match lookup ipAddress with
       | Some geo => geo
       | None => GeoLocation.empty
       end in
     previous <- await (selectView (isPreviousView listingId ipAddress now)) ;;
     let previousView := hd_error previous in
     recent <- await (selectView (isRecentView listingId ipAddress now)) ;;
     match hd_error recent with
     | Some recentView =>
         await (updateViewSession (ListingView.id recentView) now) ;;;
         ret (mkResponse 200 (JMessage "View duration updated"))
     | None =>
         rows <- await (insertView listingId viewerId ipAddress userAgent
                                   geoLocation (isSome previousView) now) ;;
         ret (mkResponse 200 (JView (hd_error rows)))
     end)
    "Failed to track view".

(** *** [GET /api/listings/:id/analytics] *)

Definition selectListing (listingId : Z) (d : DB)
  : (Exception + list Listing.t) * DB :=
  (inr (Sql.selectLimit1 (fun l => Listing.id l =? listingId) (listings d)),
   d).

Definition viewsOf (listingId : Z) (d : DB) : list ListingView.t :=
  filter (fun v => ListingView.listingId v =? listingId) (listingViews d).

Definition viewTotals (listingId : Z) (d : DB) : ViewTotals :=
  let rows := viewsOf listingId d in
  mkTotals
    (Z.of_nat (List.length rows))
    (Sql.countDistinct (map ListingView.ipAddress rows))
    (Sql.countDistinct
       (map ListingView.ipAddress
            (filter (fun v => truthy (ListingView.isReturn v)) rows)))
    (Sql.avgInt (map ListingView.sessionDuration rows)).

Definition selectViewTotals (listingId : Z) (d : DB)
  : (Exception + ViewTotals) * DB :=
  (inr (viewTotals listingId d), d).

Definition digit (n : Z) : string :=
  match n with
  | 0 => "0" | 1 => "1" | 2 => "2" | 3 => "3" | 4 => "4"
  | 5 => "5" | 6 => "6" | 7 => "7" | 8 => "8" | _ => "9"
  end.

(** [to_char(created_at, 'HH24:00')] *)
Definition hourOfDay (t : Z) : Z := (t / Time.msPerHour) mod 24.
Definition hourLabel (h : Z) : string :=
  (digit (h / 10) ++ digit (h mod 10) ++ ":00")%string.

(** Rows of the listing created after [since], as their [createdAt]. *)
Definition createdSince (listingId since : Z) (d : DB) : list Z :=
  Sql.somes
    (map ListingView.createdAt
         (filter (fun v => Sql.tsAfter (ListingView.createdAt v) since)
                 (viewsOf listingId d))).

Definition hourlyViewsOf (listingId now : Z) (d : DB) : list (string * Z) :=
  let hours :=
    map hourOfDay
        (createdSince listingId (now - Time.interval_24_hours) d) in
  map (fun hc => (hourLabel (fst hc), snd hc))
      (Sql.orderByKey (Sql.groupCount Z.eqb hours)).

Definition selectHourlyViews (listingId now : Z) (d : DB)
  : (Exception + list (string * Z)) * DB :=
  (inr (hourlyViewsOf listingId now d), d).

Definition dailyViewsOf (listingId now : Z) (d : DB) : list (Z * Z) :=
  let days :=
    map Time.Day (createdSince listingId (now - Time.interval_7_days) d) in
  Sql.orderByKey (Sql.groupCount Z.eqb days).

Definition selectDailyViews (listingId now : Z) (d : DB)
  : (Exception + list (Z * Z)) * DB :=
  (inr (dailyViewsOf listingId now d), d).

(** [geo_location->>'country'], grouped, [HAVING ... is not null]. *)
Definition countryOf (v : ListingView.t) : option string :=
  match ListingView.geoLocation v with
  | Some g => GeoLocation.country g
  | None => None
  end.

Definition geoDistributionOf (listingId : Z) (d : DB) : list (string * Z) :=
  Sql.groupCount String.eqb
    (Sql.somes (map countryOf (viewsOf listingId d))).

Definition selectGeoDistribution (listingId : Z) (d : DB)
  : (Exception + list (string * Z)) * DB :=
  (inr (geoDistributionOf listingId d), d).

Definition messageCountOf (listingId : Z) (d : DB) : Z :=
  Z.of_nat
    (List.length
       (filter (fun m => match Message.listingId m with
                         | Some l => l =? listingId
                         | None => false
                         end)
               (messages d))).

Definition selectMessageCount (listingId : Z) (d : DB)
  : (Exception + Z) * DB :=
  (inr (messageCountOf listingId d), d).

(** [!listing || listing.userId !== req.user.id] *)
Definition notOwner (listing : option Listing.t) (u : User.t) : bool :=
  match listing with
  | None => true
  | Some l =>
      match Listing.userId l with
      | Some owner => negb (owner =? User.id u)
      | None => true
      end
  end.

Definition getListingAnalytics
    (user : option User.t) (id : Z) (now : Z) : Handler :=
  requireAuth user (fun u =>
    tryCatch
      (let listingId := id in
       found <- await (selectListing listingId) ;;
       if notOwner (hd_error found) u then
         ret (mkResponse 403 (JMessage "Unauthorized"))
       else
         viewsResult <- await (selectViewTotals listingId) ;;
         hourly <- await (selectHourlyViews listingId now) ;;
         daily <- await (selectDailyViews listingId now) ;;
         geo <- await (selectGeoDistribution listingId) ;;
         messageCount <- await (selectMessageCount listingId) ;;
         ret (mkResponse 200
                (JReport (mkReport viewsResult hourly daily geo
                                   messageCount))))
      "Failed to fetch analytics").

End Server.

(** ** Requests against the datastore *)

(** One request: the handler runs with the request's own fault plan. *)
Definition serve (h : Handler) (plan : option nat) (d : DB) : Response * DB :=
  let (r, w) := h (mkWorld plan d) in (r, db w).

(** The operations of the payment state machine, as requests. *)
Inductive PaymentOp :=
| Submit (user : option User.t) (file : option string)
         (listingId tierId : Z) (now : Z) (plan : option nat)
| SetStatus (user : option User.t) (id : Z) (status : string)
            (now : Z) (plan : option nat).

Section Runs.

Variable LocalTZA : Z -> bool -> Z.
Variable uploadFile : string -> option string.

Definition runPaymentOp (op : PaymentOp) (d : DB) : Response * DB :=
  match op with
  | Submit user file listingId tierId now plan =>
      serve (postPremiumPayment uploadFile user file listingId tierId now)
            plan d
  | SetStatus user id status now plan =>
      serve (putAdminPremiumPayment LocalTZA user id status now) plan d
  end.

(** A sequence of requests, each of which has to answer 200 for the run
    to go on; [None] when one of them does not. *)
Fixpoint runPaymentOps (ops : list PaymentOp) (d : DB) : option DB :=
  match ops with
  | [] => Some d
  | op :: rest =>
      let (r, d') := runPaymentOp op d in
      if status r =? 200 then runPaymentOps rest d' else None
  end.

End Runs.

(** ** Sample data *)

Module Sample.

Definition admin : User.t := User.mk 1 (Some true).
Definition seller : User.t := User.mk 2 (Some false).

Definition tier30 : PremiumTier.t := PremiumTier.mk 1 "Gold" 500 30.

Definition phone : Listing.t :=
  Listing.mk 7 "Phone" (Some 2) (Some false) None None.

Definition store : DB := mkDB [phone] [tier30] [] [] [] 1 1.

Definition upload : string -> option string :=
  fun f => Some ("https://cdn/" ++ f)%string.

(** One request without fault, on a server in UTC. *)
Definition submit (now : Z) (d : DB) : Response * DB :=
  serve (postPremiumPayment upload (Some seller) (Some "proof.png") 7 1 now)
        None d.

Definition submitForever (now : Z) (d : DB) : Response * DB :=
  serve (postPremiumPayment upload (Some seller) (Some "proof.png") 7 2 now)
        None d.

Definition setStatus (plan : option nat) (id : Z) (s : string) (now : Z)
    (d : DB) : Response * DB :=
  serve (putAdminPremiumPayment Time.utcZone (Some admin) id s now) plan d.

Definition view (ip : string) (now : Z) (d : DB) : Response * DB :=
  serve (postListingView None 7 ip None now) None d.

(** A row of [listing_views] for the phone: the visitor's address, when
    the view began and, if its session was closed, when it ended and how
    many seconds it took. *)
Definition viewRow (id : Z) (ip : string) (start : Z)
    (session : option (Z * Z)) : ListingView.t :=
  ListingView.mk id 7 None ip None (Some GeoLocation.empty)
                 (option_map snd session) (Some start)
                 (option_map fst session) (Some false) (Some start).

Definition withViewRows (rows : list ListingView.t) : DB :=
  mkDB [phone] [tier30] [] rows [] 1 (1 + Z.of_nat (List.length rows)).

(** Three visitors with sessions of 1, 2 and 2 seconds. *)
Definition visited : DB :=
  withViewRows [viewRow 1 "10.0.0.1" 0 (Some (1000, 1));
                viewRow 2 "10.0.0.2" 5000 (Some (7000, 2));
                viewRow 3 "10.0.0.3" 10000 (Some (12000, 2))].

(** A visitor with a session of 10 seconds, and a visitor whose view is
    still open. *)
Definition tenAndNull : DB :=
  withViewRows [viewRow 1 "10.0.0.1" 0 (Some (10000, 10));
                viewRow 2 "10.0.0.2" 20000 None].

(** A tier that runs for the largest number of days its column holds. *)
Definition tierForever : PremiumTier.t :=
  PremiumTier.mk 2 "Forever" 900 2147483647.

Definition storeForever : DB := mkDB [phone] [tier30; tierForever] [] [] [] 1 1.

Definition analytics (u : User.t) (id : Z) (now : Z) (d : DB)
  : Response * DB :=
  serve (getListingAnalytics (Some u) id now) None d.

End Sample.

(** ** Vocabulary of the properties *)

(** The three writes of an approval, one after the other. *)
Definition approveWrite1 (id : Z) (d : DB) : DB :=
  withPayments d
    (Sql.updateWhere (isPayment id) (PremiumPayment.setStatus "approved")
                     (premiumPayments d))
    (premiumPayments_seq d).

Definition approveWrite2 (p : PremiumPayment.t) (e : Z) (d : DB) : DB :=
  withListings d
    (Sql.updateWhere
       (fun l => Listing.id l =? PremiumPayment.listingId p)
       (Listing.setPremium (PremiumPayment.tierId p) e)
       (listings d)).

Definition approveWrite3 (id e : Z) (d : DB) : DB :=
  withPayments d
    (Sql.updateWhere (isPayment id) (PremiumPayment.setExpiresAt e)
                     (premiumPayments d))
    (premiumPayments_seq d).

(** The 500 answer of the status route. *)
Definition failed (e : Exception) : Response :=
  mkResponse 500 (JFailure "Failed to update payment status" e).

(** The payment and the tier a request refers to. *)
Definition paymentOf (id : Z) (d : DB) : option PremiumPayment.t :=
  find (isPayment id) (premiumPayments d).

Definition tierOf (p : PremiumPayment.t) (d : DB) : option PremiumTier.t :=
  find (fun t => PremiumTier.id t =? PremiumPayment.tierId p) (premiumTiers d).

(** A payment row as an approval leaves it. *)
Definition approved (e : Z) (p : PremiumPayment.t) : PremiumPayment.t :=
  PremiumPayment.setExpiresAt e (PremiumPayment.setStatus "approved" p).

(** Two payment rows that differ in nothing but [status]. *)
Definition sameButStatus (q q' : PremiumPayment.t) : Prop :=
  q' = PremiumPayment.mk
         (PremiumPayment.id q) (PremiumPayment.listingId q)
         (PremiumPayment.userId q) (PremiumPayment.tierId q)
         (PremiumPayment.paymentProof q) (PremiumPayment.status q')
         (PremiumPayment.amount q) (PremiumPayment.createdAt q)
         (PremiumPayment.expiresAt q).

(** The spec's invariant of the payments, and the half of it that the
    approval establishes. *)
Definition expirySetIffApproved (d : DB) : Prop :=
  forall p, In p (premiumPayments d) ->
            (PremiumPayment.expiresAt p <> None
             <-> PremiumPayment.status p = Some "approved").

Definition approvedHasExpiry (d : DB) : Prop :=
  forall p, In p (premiumPayments d) ->
            PremiumPayment.status p = Some "approved" ->
            PremiumPayment.expiresAt p <> None.

(** The spec's "average, truncated". *)
Definition truncatedAverage (ds : list Z) : Z :=
  Z.quot (Sql.sum ds) (Z.of_nat (List.length ds)).

(** The first row of a listing, and whether a user owns the listing. *)
Definition listingOf (id : Z) (d : DB) : option Listing.t :=
  find (fun l => Listing.id l =? id) (listings d).

Definition owns (u : User.t) (id : Z) (d : DB) : Prop :=
  exists l, listingOf id d = Some l /\ Listing.userId l = Some (User.id u).

(** The report of a listing, and the 500 answer of the analytics route. *)
Definition reportOf (id now : Z) (d : DB) : AnalyticsReport :=
  mkReport (viewTotals id d) (hourlyViewsOf id now d) (dailyViewsOf id now d)
           (geoDistributionOf id d) (messageCountOf id d).

Definition analyticsFailed (e : Exception) : Response :=
  mkResponse 500 (JFailure "Failed to fetch analytics" e).

(** The 500 answer of the view route. *)
Definition trackFailed (e : Exception) : Response :=
  mkResponse 500 (JFailure "Failed to track view" e).


(** ** Vocabulary of further properties *)

(** Two payment rows that agree on all that a submission fixes, and two
    listing rows that agree on all but the premium fields. *)
Definition samePaymentCore (q q' : PremiumPayment.t) : Prop :=
  PremiumPayment.id q' = PremiumPayment.id q
  /\ PremiumPayment.listingId q' = PremiumPayment.listingId q
  /\ PremiumPayment.userId q' = PremiumPayment.userId q
  /\ PremiumPayment.tierId q' = PremiumPayment.tierId q
  /\ PremiumPayment.paymentProof q' = PremiumPayment.paymentProof q
  /\ PremiumPayment.amount q' = PremiumPayment.amount q
  /\ PremiumPayment.createdAt q' = PremiumPayment.createdAt q.

Definition sameListingCore (l l' : Listing.t) : Prop :=
  Listing.id l' = Listing.id l
  /\ Listing.title l' = Listing.title l
  /\ Listing.userId l' = Listing.userId l.

(** Two stores with the same rows in every table; their identity
    sequences may differ. *)
Definition sameRows (d d' : DB) : Prop :=
  listings d' = listings d
  /\ premiumTiers d' = premiumTiers d
  /\ premiumPayments d' = premiumPayments d
  /\ listingViews d' = listingViews d
  /\ messages d' = messages d.

(** The views among [created] that fall into hour [h] of the day. *)
Definition viewsInHour (h : Z) (created : list Z) : Z :=
  Z.of_nat (List.length (filter (fun t => hourOfDay t =? h) created)).

(** The count that the rows of a grouping hold for a key. *)
Definition tally {K} (eqb : K -> K -> bool) (k : K) (rows : list (K * Z)) : Z :=
  Sql.sum (map snd (filter (fun kc => eqb k (fst kc)) rows)).

(** The 500 answer of the submission route. *)
Definition submitFailed (e : Exception) : Response :=
  mkResponse 500 (JFailure "Failed to submit payment proof" e).

(** View requests of any visitors, one after the other. *)
Record ViewRequest := mkViewRequest {
  vr_user : option User.t;
  vr_listing : Z;
  vr_ip : string;
  vr_agent : option string;
  vr_time : Z;
  vr_plan : option nat
}.

Definition serveView (r : ViewRequest) (d : DB) : Response * DB :=
  serve (postListingView (vr_user r) (vr_listing r) (vr_ip r)
                         (vr_agent r) (vr_time r))
        (vr_plan r) d.

Fixpoint serveViews (reqs : list ViewRequest) (d : DB) : DB :=
  match reqs with
  | [] => d
  | r :: rest => serveViews rest (snd (serveView r d))
  end.

(** ** More routes of [server/routes.ts]

    The routes below answer with bodies of their own, and the bookmark
    routes work on a table of their own: their handlers run in the same
    kind of monad as above, over any store. *)

(** [res.json(b)], [res.status(code).json({ message })] and the answer of
    a [catch]. *)
Inductive Answer (B : Type) :=
| Json (b : B)
| Refused (code : Z) (message : string)
| Failure (message : string) (error : Exception).

Arguments Json {B} b.
Arguments Refused {B} code message.
Arguments Failure {B} message error.

Definition codeOf {B} (a : Answer B) : Z :=
  match a with
  | Json _ => 200
  | Refused c _ => c
  | Failure _ _ => 500
  end.

Module Act.

Section Store.

Variable S : Type.

Definition t (A : Type) : Type :=
  option nat * S -> (Exception + A) * (option nat * S).

Definition ret {A} (a : A) : t A := fun w => (inr a, w).

Definition bind {A B} (m : t A) (k : A -> t B) : t B :=
  fun w =>
    match m w with
    | (inl e, w') => (inl e, w')
    | (inr a, w') => k a w'
    end.

(** One awaited statement, with the fault plan of [await] above. *)
Definition await {A} (q : S -> (Exception + A) * S) : t A :=
  fun w =>
    match fst w with
    | Some O => (inl DbError, (None, snd w))
    | f => let (r, s') := q (snd w) in (r, (tick f, s'))
    end.

(** A request: [try]/[catch] around the body, run with a fault plan. *)
Definition attempt {B} (m : t (Answer B)) (message : string)
    (plan : option nat) (s : S) : Answer B * S :=
  match m (plan, s) with
  | (inr a, w) => (a, snd w)
  | (inl e, w) => (Failure message e, snd w)
  end.

End Store.

Arguments ret {S A} a.
Arguments bind {S A B} m k.
Arguments await {S A} q.
Arguments attempt {S B} m message plan s.

End Act.

(** *** [GET /api/premium-tiers] *)

(** [ORDER BY key] on an integer column; rows with equal keys stay in
    storage order. *)
Fixpoint insertBy {A} (key : A -> Z) (x : A) (l : list A) : list A :=
  match l with
  | [] => [x]
  | y :: r => if key x <=? key y then x :: l else y :: insertBy key x r
  end.

Definition orderBy {A} (key : A -> Z) (l : list A) : list A :=
  fold_right (insertBy key) [] l.

Definition getPremiumTiers (plan : option nat) (d : DB)
  : Answer (list PremiumTier.t) * DB :=
  Act.attempt
    (Act.bind
       (Act.await
          (fun d => (inr (orderBy PremiumTier.price (premiumTiers d)), d)))
       (fun tiers => Act.ret (Json tiers)))
    "Failed to fetch premium tiers" plan d.

(** *** [GET /api/listings/:id] *)

Definition getListing (id : Z) (plan : option nat) (d : DB)
  : Answer Listing.t * DB :=
  Act.attempt
    (Act.bind
       (Act.await
          (fun d => (inr (Sql.selectLimit1 (fun l => Listing.id l =? id)
                                           (listings d)), d)))
       (fun rows =>
          match hd_error rows with
          | None => Act.ret (Refused 404 "Listing not found")
          | Some listing => Act.ret (Json listing)
          end))
    "Failed to fetch listing" plan d.

(** *** The bookmark routes *)

Module Bookmark.
Record t := mk { id : Z; userId : Z; listingId : Z; createdAt : option Z }.
End Bookmark.

(** The store with the [bookmarks] table and its identity sequence. *)
Record Shelf := mkShelf {
  shelf_db : DB;
  bookmarks : list Bookmark.t;
  bookmarks_seq : Z
}.

Definition isBookmark (userId listingId : Z) (b : Bookmark.t) : bool :=
  (Bookmark.userId b =? userId) && (Bookmark.listingId b =? listingId).

(** The insert takes the next identity value and [createdAt] from
    [defaultNow()]; the primary key and the reference to [listings] are
    checked, and a rejected insert has taken its identity value. *)
Definition insertBookmark (userId listingId now : Z) (s : Shelf)
  : (Exception + list Bookmark.t) * Shelf :=
  let row := Bookmark.mk (bookmarks_seq s) userId listingId (Some now) in
  if Sql.hasId Bookmark.id (Bookmark.id row) (bookmarks s)
     || negb (Sql.hasId Listing.id listingId (listings (shelf_db s)))
  then (inl DbError,
        mkShelf (shelf_db s) (bookmarks s) (bookmarks_seq s + 1))
  else (inr [row],
        mkShelf (shelf_db s) (bookmarks s ++ [row]) (bookmarks_seq s + 1)).

Definition postBookmark (user : option User.t) (listingId now : Z)
    (plan : option nat) (s : Shelf)
  : Answer (option Bookmark.t) * Shelf :=
  match user with
  | None => (Refused 401 "Unauthorized", s)
  | Some u =>
      Act.attempt
        (Act.bind
           (Act.await
              (fun s => (inr (Sql.selectLimit1
                                (isBookmark (User.id u) listingId)
                                (bookmarks s)), s)))
           (fun existing =>
              match hd_error existing with
              | Some _ => Act.ret (Refused 400 "Already bookmarked")
              | None =>
                  Act.bind
                    (Act.await (insertBookmark (User.id u) listingId now))
                    (fun rows => Act.ret (Json (hd_error rows)))
              end))
        "Failed to create bookmark" plan s
  end.

(** [DELETE FROM bookmarks WHERE user_id = ... AND listing_id = ...] *)
Definition deleteBookmark (user : option User.t) (listingId : Z)
    (plan : option nat) (s : Shelf) : Answer string * Shelf :=
  match user with
  | None => (Refused 401 "Unauthorized", s)
  | Some u =>
      Act.attempt
        (Act.bind
           (Act.await
              (fun s =>
                 (inr tt,
                  mkShelf (shelf_db s)
                    (filter (fun b => negb (isBookmark (User.id u)
                                                       listingId b))
                            (bookmarks s))
                    (bookmarks_seq s))))
           (fun _ => Act.ret (Json "Bookmark removed")))
        "Failed to remove bookmark" plan s
  end.

(** The inner join of the user's bookmarks with the listings: each row is
    the listing with the id of the bookmark. *)
Definition bookmarkedListings (userId : Z) (s : Shelf) : list (Listing.t * Z) :=
  flat_map
    (fun b =>
       map (fun l => (l, Bookmark.id b))
           (filter (fun l => Listing.id l =? Bookmark.listingId b)
                   (listings (shelf_db s))))
    (filter (fun b => Bookmark.userId b =? userId) (bookmarks s)).

Definition getBookmarks (user : option User.t) (plan : option nat) (s : Shelf)
  : Answer (list (Listing.t * Z)) * Shelf :=
  match user with
  | None => (Refused 401 "Unauthorized", s)
  | Some u =>
      Act.attempt
        (Act.bind
           (Act.await (fun s => (inr (bookmarkedListings (User.id u) s), s)))
           (fun rows => Act.ret (Json rows)))
        "Failed to fetch bookmarks" plan s
  end.





(** ** [server/websocket.ts]

    [userSockets] is a [Map] from user id to socket id; a [Map] keeps its
    keys in insertion order, and [set] on a key it has replaces the value
    in place. *)

Module Sockets.

Definition UserSockets : Type := list (Z * string).

Fixpoint set (userId : Z) (socketId : string) (m : UserSockets)
  : UserSockets :=
  match m with
  | [] => [(userId, socketId)]
  | (k, v) :: r =>
      if k =? userId then (k, socketId) :: r
      else (k, v) :: set userId socketId r
  end.

Definition get (userId : Z) (m : UserSockets) : option string :=
  option_map snd (find (fun e => fst e =? userId) m).

Fixpoint delete (userId : Z) (m : UserSockets) : UserSockets :=
  match m with
  | [] => []
  | (k, v) :: r => if k =? userId then r else (k, v) :: delete userId r
  end.

(** The events a socket sends, and what the server emits. *)
Inductive Event :=
| Authenticate (userId : Z)
| PrivateMessage (recipientId : Z) (message : string)
| ListingUpdate (listing : string)
| Disconnect.

Inductive Emit :=
| ToSocket (socketId : string) (event : string) (payload : string)
| BroadcastFrom (socketId : string) (event : string) (payload : string).

(** The loop of the disconnect handler: the first entry whose socket is
    the closing one is deleted by its key, and the loop ends. *)
Definition disconnect (socketId : string) (m : UserSockets) : UserSockets :=
  match find (fun e => String.eqb (snd e) socketId) m with
  | Some (userId, _) => delete userId m
  | None => m
  end.

Definition on (socketId : string) (e : Event) (m : UserSockets)
  : UserSockets * list Emit :=
  match e with
  | Authenticate userId => (set userId socketId m, [])
  | PrivateMessage recipientId message =>
      match get recipientId m with
      | Some recipientSocket =>
          (m, [ToSocket recipientSocket "new_message" message])
      | None => (m, [])
      end
  | ListingUpdate listing =>
      (m, [BroadcastFrom socketId "listing_changed" listing])
  | Disconnect => (disconnect socketId m, [])
  end.

(** The events of all sockets in the order the server handles them. *)
Fixpoint run (trace : list (string * Event)) (m : UserSockets)
  : UserSockets * list Emit :=
  match trace with
  | [] => (m, [])
  | (socketId, e) :: rest =>
      let (m1, out1) := on socketId e m in
      let (m2, out2) := run rest m1 in
      (m2, (out1 ++ out2)%list)
  end.

(** The sockets that sent [authenticate] in a trace. *)
Fixpoint authenticated (trace : list (string * Event)) : list string :=
  match trace with
  | [] => []
  | (socketId, Authenticate _) :: rest => socketId :: authenticated rest
  | _ :: rest => authenticated rest
  end.

(** The entries that map to a socket, and the others. *)
Definition ofSocket (socketId : string) (m : UserSockets) : UserSockets :=
  filter (fun e => String.eqb (snd e) socketId) m.

Definition ofOthers (socketId : string) (m : UserSockets) : UserSockets :=
  filter (fun e => negb (String.eqb (snd e) socketId)) m.

End Sockets.

(** ** [server/storage.ts] *)

Module Storage.

(** [s.split(sep)] for a separator of one character. *)
Fixpoint split (sep : Ascii.ascii) (s : string) : list string :=
  match s with
  | EmptyString => [EmptyString]
  | String c r =>
      if Ascii.eqb c sep then EmptyString :: split sep r
      else match split sep r with
           | h :: t => String c h :: t
           | [] => [String c EmptyString]
           end
  end.

(** The character ['.'], code 46. *)
Definition dot : Ascii.ascii := Ascii.ascii_of_nat 46.

(** [originalname.split('.').pop()] *)
Definition fileExt (originalname : string) : string :=
  last (split dot originalname) EmptyString.

Fixpoint occurs (c : Ascii.ascii) (s : string) : bool :=
  match s with
  | EmptyString => false
  | String c' r => Ascii.eqb c' c || occurs c r
  end.

Section Upload.

(** The id [randomUUID()] returns for this call, whether the upload to the
    bucket goes through, and [getPublicUrl]. *)
Variable randomUUID : string.
Variable upload : string -> bool.
Variable getPublicUrl : string -> string.

Definition filePath (originalname folder : string) : string :=
  (folder ++ "/" ++ (randomUUID ++ "." ++ fileExt originalname))%string.

(** [None] when the function throws. *)
Definition uploadFile (originalname folder : string) : option string :=
  let path := filePath originalname folder in
  if upload path then Some (getPublicUrl path) else None.

End Upload.

End Storage.

(** [parts.join(sep)], the inverse of [split]. *)
Fixpoint join (sep : Ascii.ascii) (parts : list string) : string :=
  match parts with
  | [] => EmptyString
  | [p] => p
  | p :: rest => (p ++ String sep (join sep rest))%string
  end.

(** * Properties *)

(** ** Calendar arithmetic *)

Module TimeFacts.
Import Time.

Lemma MonthFromTime_range (t : Z) : 0 <= MonthFromTime t <= 11.
Proof.
  unfold MonthFromTime.
  repeat match goal with
         | |- context [if ?b then _ else _] => destruct b
         end; lia.
Qed.

(** [YearFromTime] meets its definition: the year found starts on or
    before the day of [t], and the next year starts after it. *)
Lemma YearFromTime_spec (t : Z) :
  DayFromYear (YearFromTime t) <= Day t < DayFromYear (YearFromTime t + 1).
Proof.
  unfold YearFromTime.
  set (d := Day t). clearbody d.
  destruct (d <? DayFromYear (1970 + d * 400 / 146097)) eqn:E1;
    [ apply Z.ltb_lt in E1 | apply Z.ltb_ge in E1 ].
  - unfold DayFromYear in *. Z.div_mod_to_equations. lia.
  - destruct (DayFromYear (1970 + d * 400 / 146097 + 1) <=? d) eqn:E2;
      [ apply Z.leb_le in E2 | apply Z.leb_gt in E2 ].
    + unfold DayFromYear in *. Z.div_mod_to_equations. lia.
    + lia.
Qed.

(** Moving the day of the month moves the day number by as much,
    across the ends of months and years. *)
Lemma MakeDay_DateFromTime (t n : Z) :
  MakeDay (YearFromTime t) (MonthFromTime t) (DateFromTime t + n)
  = Day t + n.
Proof.
  pose proof (MonthFromTime_range t) as Hm.
  unfold MakeDay, DateFromTime, DayWithinYear, InLeapYear.
  rewrite (Z.div_small (MonthFromTime t) 12) by lia.
  rewrite (Z.mod_small (MonthFromTime t) 12) by lia.
  rewrite Z.add_0_r. lia.
Qed.

Lemma setDate_getDate (tz : Z -> bool -> Z) (d n : Z) :
  setDate tz d (getDate tz d + n) = TimeClip (plusCalendarDays tz d n).
Proof.
  unfold setDate, getDate, plusCalendarDays.
  now rewrite MakeDay_DateFromTime.
Qed.

Lemma TimeClip_representable (t : Z) : representable t -> TimeClip t = Some t.
Proof.
  unfold representable, TimeClip. intros H.
  destruct (maxTime <? Z.abs t) eqn:E; [apply Z.ltb_lt in E; lia | reflexivity].
Qed.

Lemma TimeClip_beyond (t : Z) : ~ representable t -> TimeClip t = None.
Proof.
  unfold representable, TimeClip. intros H.
  destruct (maxTime <? Z.abs t) eqn:E; [reflexivity | apply Z.ltb_ge in E; lia].
Qed.

Lemma TimeClip_value (t e : Z) : TimeClip t = Some e -> e = t /\ representable t.
Proof.
  unfold representable, TimeClip.
  destruct (maxTime <? Z.abs t) eqn:E; [discriminate|].
  apply Z.ltb_ge in E. intros H. injection H as <-. now split.
Qed.

(** In a zone with a fixed offset a calendar day is 24 hours. *)
Lemma plusCalendarDays_fixed (off t n : Z) :
  plusCalendarDays (fun _ _ => off) t n = t + n * msPerDay.
Proof.
  unfold plusCalendarDays, UTC, LocalTime, MakeDate, Day, TimeWithinDay.
  pose proof (Z.div_mod (t + off) msPerDay) as H.
  unfold msPerDay in *. lia.
Qed.

Lemma pg_round_div_nearest (a b : Z) :
  0 < b -> 2 * Z.abs (b * pg_round_div a b - a) <= b.
Proof.
  intros Hb. unfold pg_round_div.
  destruct (0 <=? a) eqn:E.
  - pose proof (Z.div_mod (2 * a + b) (2 * b)) as H.
    pose proof (Z.mod_pos_bound (2 * a + b) (2 * b)) as H'. nia.
  - pose proof (Z.div_mod (2 * - a + b) (2 * b)) as H.
    pose proof (Z.mod_pos_bound (2 * - a + b) (2 * b)) as H'. nia.
Qed.

End TimeFacts.

(** Sanity of the calendar on known dates: 29 February 2024, the roll of
    [setDate] into March, and the last day of 1969. *)
Example year_2024 : Time.YearFromTime 1709164800000 = 2024.
Proof. reflexivity. Qed.

Example date_feb29 :
  Time.DateFromTime 1709164800000 = 29 /\ Time.MonthFromTime 1709164800000 = 1.
Proof. split; reflexivity. Qed.

Example setdate_roll :
  Time.setDate Time.utcZone 1709164800000 (29 + 2)
  = Some (1709164800000 + 2 * 86400000).
Proof. reflexivity. Qed.

Example setdate_invalid :
  Time.setDate Time.utcZone 1709164800000 (29 + 2147483647) = None.
Proof. reflexivity. Qed.

Example year_1969 :
  Time.YearFromTime (-1) = 1969
  /\ Time.DateFromTime (-1) = 31
  /\ Time.MonthFromTime (-1) = 11.
Proof. repeat split; reflexivity. Qed.

(** ** Statements on lists of rows *)

Section Rows.

Context {A : Type}.
Variables (c : A -> bool) (f g : A -> A).

Lemma hd_error_selectLimit1 (rows : list A) :
  hd_error (Sql.selectLimit1 c rows) = find c rows.
Proof.
  unfold Sql.selectLimit1.
  induction rows as [|r rows IH]; simpl; [reflexivity|].
  destruct (c r); simpl; [reflexivity | exact IH].
Qed.

Lemma hd_error_returning (rows : list A) :
  hd_error (Sql.returning c f rows) = option_map f (find c rows).
Proof.
  unfold Sql.returning.
  induction rows as [|r rows IH]; simpl; [reflexivity|].
  destruct (c r); simpl; [reflexivity | exact IH].
Qed.

Lemma updateWhere_length (rows : list A) :
  List.length (Sql.updateWhere c f rows) = List.length rows.
Proof. unfold Sql.updateWhere. apply length_map. Qed.

(** Two updates of the same rows are one update. *)
Lemma updateWhere_twice (rows : list A) :
  (forall r, c (f r) = c r) ->
  Sql.updateWhere c g (Sql.updateWhere c f rows)
  = Sql.updateWhere c (fun r => g (f r)) rows.
Proof.
  intros Hc. unfold Sql.updateWhere. rewrite map_map.
  apply map_ext. intros r.
  destruct (c r) eqn:E; [now rewrite Hc, E | now rewrite E].
Qed.

(** An update that matches no row changes nothing. *)
Lemma updateWhere_none (rows : list A) :
  find c rows = None -> Sql.updateWhere c f rows = rows.
Proof.
  unfold Sql.updateWhere.
  induction rows as [|r rows IH]; simpl; [reflexivity|].
  destruct (c r); [discriminate|].
  intros H. now rewrite IH.
Qed.

Lemma find_updateWhere (rows : list A) :
  (forall r, c (f r) = c r) ->
  find c (Sql.updateWhere c f rows) = option_map f (find c rows).
Proof.
  intros Hc. unfold Sql.updateWhere.
  induction rows as [|r rows IH]; simpl; [reflexivity|].
  destruct (c r) eqn:E.
  - now rewrite Hc, E.
  - now rewrite E.
Qed.

End Rows.

(** ** The status transition, fault by fault *)

Section Transition.

Variable LocalTZA : Z -> bool -> Z.

Lemma isPayment_id (id : Z) (p : PremiumPayment.t) :
  isPayment id p = true -> PremiumPayment.id p = id.
Proof. unfold isPayment. apply Z.eqb_eq. Qed.

Lemma paymentOf_id (id : Z) (d : DB) (p : PremiumPayment.t) :
  paymentOf id d = Some p -> PremiumPayment.id p = id.
Proof. intros H. apply isPayment_id. exact (proj2 (find_some _ _ H)). Qed.

Lemma withPayments_same (d : DB) :
  withPayments d (premiumPayments d) (premiumPayments_seq d) = d.
Proof. now destruct d. Qed.

Ltac run_handler :=
  cbn -[Sql.updateWhere Sql.returning Sql.selectLimit1 expiryDate];
  rewrite ?hd_error_returning, ?hd_error_selectLimit1.

Lemma expiryDate_calendar (now n : Z) :
  expiryDate LocalTZA now n
  = Time.TimeClip (Time.plusCalendarDays LocalTZA now n).
Proof. unfold expiryDate. apply TimeFacts.setDate_getDate. Qed.

(** What an approval by an admin does to a payment that exists and whose
    tier exists, when the expiry is a date: for every fault plan the four
    statements run in order and the first one that throws ends the request
    with what was written so far. *)
Lemma approve_run (u : User.t) (id now : Z) (plan : option nat) (d : DB)
    (p : PremiumPayment.t) (tier : PremiumTier.t) :
  truthy (User.isAdmin u) = true ->
  paymentOf id d = Some p ->
  tierOf p d = Some tier ->
  let e := Time.plusCalendarDays LocalTZA now (PremiumTier.durationDays tier) in
  Time.representable e ->
  let d1 := approveWrite1 id d in
  let d2 := approveWrite2 p e d1 in
  let d3 := approveWrite3 id e d2 in
  serve (putAdminPremiumPayment LocalTZA (Some u) id "approved" now) plan d
  = match plan with
    | Some 0%nat => (failed DbError, d)
    | Some 1%nat | Some 2%nat => (failed DbError, d1)
    | Some 3%nat => (failed DbError, d2)
    | _ => (mkResponse 200
              (JPayment (Some (PremiumPayment.setStatus "approved" p))), d3)
    end.
Proof.
  intros Hadmin Hp Ht e He d1 d2 d3.
  pose proof (paymentOf_id _ _ _ Hp) as Hid.
  assert (Hexp : expiryDate LocalTZA now (PremiumTier.durationDays tier)
                 = Some e)
    by (rewrite expiryDate_calendar; now apply TimeFacts.TimeClip_representable).
  unfold paymentOf, tierOf in *.
  unfold serve, putAdminPremiumPayment, requireAuth.
  rewrite Hadmin. cbn [negb].
  unfold tryCatch, bind, await, updatePaymentStatus, selectTier,
    updateListingPremium, updatePaymentExpiry, timestampParam, ret, respond.
  destruct plan as [[|[|[|[|k]]]]|]; run_handler; try reflexivity.
  all: rewrite Hp; run_handler; try reflexivity.
  all: rewrite Ht; run_handler; try reflexivity.
  all: rewrite Hexp; run_handler; rewrite ?Hid; reflexivity.
Qed.

(** The same approval when the expiry is no date: the status is written,
    the tier is read, and building the listing update throws. *)
Lemma approve_invalid_run (u : User.t) (id now : Z) (plan : option nat)
    (d : DB) (p : PremiumPayment.t) (tier : PremiumTier.t) :
  truthy (User.isAdmin u) = true ->
  paymentOf id d = Some p ->
  tierOf p d = Some tier ->
  ~ Time.representable
      (Time.plusCalendarDays LocalTZA now (PremiumTier.durationDays tier)) ->
  serve (putAdminPremiumPayment LocalTZA (Some u) id "approved" now) plan d
  = match plan with
    | Some 0%nat => (failed DbError, d)
    | Some 1%nat => (failed DbError, approveWrite1 id d)
    | _ => (failed RangeError, approveWrite1 id d)
    end.
Proof.
  intros Hadmin Hp Ht He.
  assert (Hexp : expiryDate LocalTZA now (PremiumTier.durationDays tier) = None)
    by (rewrite expiryDate_calendar; now apply TimeFacts.TimeClip_beyond).
  unfold paymentOf, tierOf in *.
  unfold serve, putAdminPremiumPayment, requireAuth.
  rewrite Hadmin. cbn [negb].
  unfold tryCatch, bind, await, updatePaymentStatus, selectTier,
    timestampParam, throw, ret, respond.
  destruct plan as [[|[|k]]|]; run_handler; try reflexivity.
  all: rewrite Hp; run_handler; try reflexivity.
  all: rewrite Ht; run_handler; try reflexivity.
  all: rewrite Hexp; reflexivity.
Qed.

(** An approval that is answered 200 computed an expiry that is a date. *)
Lemma approve_ok_representable (u : User.t) (id now : Z) (plan : option nat)
    (d : DB) (p : PremiumPayment.t) (tier : PremiumTier.t) :
  truthy (User.isAdmin u) = true ->
  paymentOf id d = Some p ->
  tierOf p d = Some tier ->
  status (fst (serve (putAdminPremiumPayment LocalTZA (Some u) id "approved"
                                             now) plan d)) = 200 ->
  Time.representable
    (Time.plusCalendarDays LocalTZA now (PremiumTier.durationDays tier)).
Proof.
  intros Hadmin Hp Ht H200.
  destruct (Z_le_gt_dec
              (Z.abs (Time.plusCalendarDays LocalTZA now
                        (PremiumTier.durationDays tier)))
              Time.maxTime) as [He|He]; [exact He|].
  rewrite (approve_invalid_run u id now plan d p tier Hadmin Hp Ht) in H200
    by (unfold Time.representable; lia).
  destruct plan as [[|[|k]]|]; discriminate H200.
Qed.

(** An approval of a payment whose tier row is gone: the status is
    written, then reading [tier.durationDays] throws. *)
Lemma approve_no_tier_run (u : User.t) (id now : Z) (plan : option nat)
    (d : DB) (p : PremiumPayment.t) :
  truthy (User.isAdmin u) = true ->
  paymentOf id d = Some p ->
  tierOf p d = None ->
  serve (putAdminPremiumPayment LocalTZA (Some u) id "approved" now) plan d
  = match plan with
    | Some 0%nat => (failed DbError, d)
    | Some 1%nat => (failed DbError, approveWrite1 id d)
    | _ => (failed TypeError, approveWrite1 id d)
    end.
Proof.
  unfold paymentOf, tierOf.
  intros Hadmin Hp Ht.
  unfold serve, putAdminPremiumPayment, requireAuth.
  rewrite Hadmin. cbn [negb].
  unfold tryCatch, bind, await, updatePaymentStatus, selectTier, ret.
  destruct plan as [[|[|k]]|]; run_handler; try reflexivity.
  all: rewrite Hp; run_handler; try reflexivity.
  all: rewrite Ht; reflexivity.
Qed.

(** An approval of a payment that does not exist: the update matches no
    row, then reading [payment.tierId] throws. *)
Lemma approve_missing_run (u : User.t) (id now : Z) (plan : option nat)
    (d : DB) :
  truthy (User.isAdmin u) = true ->
  paymentOf id d = None ->
  serve (putAdminPremiumPayment LocalTZA (Some u) id "approved" now) plan d
  = match plan with
    | Some 0%nat => (failed DbError, d)
    | _ => (failed TypeError, d)
    end.
Proof.
  unfold paymentOf.
  intros Hadmin Hp.
  unfold serve, putAdminPremiumPayment, requireAuth.
  rewrite Hadmin. cbn [negb].
  unfold tryCatch, bind, await, updatePaymentStatus, ret.
  destruct plan as [[|k]|]; run_handler; try reflexivity.
  all: rewrite Hp, (updateWhere_none _ _ _ Hp), withPayments_same;
    reflexivity.
Qed.

(** Any other status: one statement, the status update. *)
Lemma other_status_run (u : User.t) (id now : Z) (s : string)
    (plan : option nat) (d : DB) :
  truthy (User.isAdmin u) = true ->
  String.eqb s "approved" = false ->
  serve (putAdminPremiumPayment LocalTZA (Some u) id s now) plan d
  = match plan with
    | Some 0%nat => (failed DbError, d)
    | _ => (mkResponse 200
              (JPayment (option_map (PremiumPayment.setStatus s)
                                    (paymentOf id d))),
            withPayments d
              (Sql.updateWhere (isPayment id) (PremiumPayment.setStatus s)
                               (premiumPayments d))
              (premiumPayments_seq d))
    end.
Proof.
  intros Hadmin Hs.
  unfold serve, putAdminPremiumPayment, requireAuth, paymentOf.
  rewrite Hadmin, Hs. cbn [negb].
  unfold tryCatch, bind, await, updatePaymentStatus, ret.
  destruct plan as [[|k]|]; run_handler; reflexivity.
Qed.

(** Without an admin nothing runs. *)
Lemma not_admin_run (user : option User.t) (id now : Z) (s : string)
    (plan : option nat) (d : DB) :
  match user with
  | Some u => truthy (User.isAdmin u) = false
  | None => True
  end ->
  serve (putAdminPremiumPayment LocalTZA user id s now) plan d
  = (mkResponse (match user with Some _ => 403 | None => 401 end)
                (JMessage "Unauthorized"), d).
Proof.
  destruct user as [u|]; intros H; unfold serve, putAdminPremiumPayment,
    requireAuth; [rewrite H|]; reflexivity.
Qed.

End Transition.
(** The payment of a request, after the writes of an approval. *)
Lemma paymentOf_approveWrite1 (id : Z) (d : DB) (p : PremiumPayment.t) :
  paymentOf id d = Some p ->
  paymentOf id (approveWrite1 id d)
  = Some (PremiumPayment.setStatus "approved" p).
Proof.
  unfold paymentOf. intros Hp.
  cbn [approveWrite1 withPayments premiumPayments].
  rewrite find_updateWhere by (intros r; reflexivity). now rewrite Hp.
Qed.

Lemma paymentOf_approveWrite3 (id e : Z) (d : DB) (p : PremiumPayment.t) :
  paymentOf id d = Some p ->
  paymentOf id (approveWrite3 id e (approveWrite2 p e (approveWrite1 id d)))
  = Some (approved e p).
Proof.
  unfold paymentOf. intros Hp.
  cbn [approveWrite3 approveWrite2 approveWrite1 withPayments withListings
         premiumPayments].
  rewrite !find_updateWhere by (intros r; reflexivity). now rewrite Hp.
Qed.

(** ** Approval *)

Lemma In_updateWhere {A} (c : A -> bool) (f : A -> A) (rows : list A) (r' : A) :
  In r' (Sql.updateWhere c f rows) ->
  exists r, In r rows /\ r' = if c r then f r else r.
Proof.
  unfold Sql.updateWhere. rewrite in_map_iff.
  intros [r [E H]]. exists r. split; [exact H | now symmetry].
Qed.

Lemma isPayment_setStatus (id : Z) (s : string) (p : PremiumPayment.t) :
  isPayment id (PremiumPayment.setStatus s p) = isPayment id p.
Proof. reflexivity. Qed.

(** C1, counterexample. A payment for a tier of 2147483647 days is
    submitted and an admin approves it, with no statement failing.  The
    approval time plus that many days lies beyond what a [Date] holds: the
    request answers 500, the payment is approved without an expiry and the
    listing is not premium. *)
Lemma approval_beyond_date_range :
  let d := snd (Sample.submitForever 1000 Sample.storeForever) in
  let p := PremiumPayment.mk 1 7 2 2 "https://cdn/proof.png"
                             (Some "pending") 900 (Some 1000) None in
  let out := Sample.setStatus None 1 "approved" 2000 d in
  paymentOf 1 d = Some p
  /\ tierOf p d = Some Sample.tierForever
  /\ Time.plusCalendarDays Time.utcZone 2000 2147483647 = 185542587100802000
  /\ fst out = failed RangeError
  /\ map PremiumPayment.status (premiumPayments (snd out)) = [Some "approved"]
  /\ map PremiumPayment.expiresAt (premiumPayments (snd out)) = [None]
  /\ map Listing.isPremium (listings (snd out)) = [Some false]
  /\ map Listing.premiumExpiresAt (listings (snd out)) = [None].
Proof. cbv zeta. repeat split; reflexivity. Qed.

(** C1, amended. When an admin sets the status of a payment to approved,
    no statement fails, and the time of the approval plus the tier's
    [durationDays] calendar days is a time a [Date] can hold, the request
    answers 200; every listing row the payment refers to gets
    [isPremium = true], the payment's [tierId] as [premiumTierId] and that
    time as [premiumExpiresAt]; the payment row gets [status = approved]
    and the same time as [expiresAt]; no other row changes. *)
Theorem approval_activates_listing
    (LocalTZA : Z -> bool -> Z) (u : User.t) (id now : Z) (d : DB)
    (p : PremiumPayment.t) (tier : PremiumTier.t) :
  truthy (User.isAdmin u) = true ->
  paymentOf id d = Some p ->
  tierOf p d = Some tier ->
  let e := Time.plusCalendarDays LocalTZA now (PremiumTier.durationDays tier) in
  Time.representable e ->
  let out :=
    serve (putAdminPremiumPayment LocalTZA (Some u) id "approved" now) None d in
  status (fst out) = 200
  /\ listings (snd out)
     = Sql.updateWhere (fun l => Listing.id l =? PremiumPayment.listingId p)
                       (Listing.setPremium (PremiumPayment.tierId p) e)
                       (listings d)
  /\ premiumPayments (snd out)
     = Sql.updateWhere (isPayment id) (approved e) (premiumPayments d)
  /\ (forall l, In l (listings (snd out)) ->
                Listing.id l = PremiumPayment.listingId p ->
                Listing.isPremium l = Some true
                /\ Listing.premiumTierId l = Some (PremiumPayment.tierId p)
                /\ Listing.premiumExpiresAt l = Some e)
  /\ (forall q, In q (premiumPayments (snd out)) ->
                PremiumPayment.id q = id ->
                PremiumPayment.status q = Some "approved"
                /\ PremiumPayment.expiresAt q = Some e)
  /\ paymentOf id (snd out) = Some (approved e p).
Proof.
  intros Hadmin Hp Ht e He out.
  assert (Hout : out = (mkResponse 200
                          (JPayment (Some (PremiumPayment.setStatus "approved" p))),
                        approveWrite3 id e
                          (approveWrite2 p e (approveWrite1 id d))))
    by exact (approve_run LocalTZA u id now None d p tier Hadmin Hp Ht He).
  rewrite Hout. cbn [fst snd status].
  assert (Hpay : premiumPayments
                   (approveWrite3 id e (approveWrite2 p e (approveWrite1 id d)))
                 = Sql.updateWhere (isPayment id) (approved e)
                                   (premiumPayments d)).
  { cbn [approveWrite3 approveWrite2 approveWrite1 withPayments withListings
           premiumPayments].
    exact (updateWhere_twice (isPayment id)
             (PremiumPayment.setStatus "approved")
             (PremiumPayment.setExpiresAt e) (premiumPayments d)
             (isPayment_setStatus id "approved")). }
  assert (Hlist : listings
                    (approveWrite3 id e (approveWrite2 p e (approveWrite1 id d)))
                  = Sql.updateWhere
                      (fun l => Listing.id l =? PremiumPayment.listingId p)
                      (Listing.setPremium (PremiumPayment.tierId p) e)
                      (listings d)) by reflexivity.
  rewrite Hpay, Hlist.
  repeat split.
  - apply In_updateWhere in H. destruct H as [l0 [_ E]].
    destruct (Listing.id l0 =? PremiumPayment.listingId p) eqn:C;
      subst l; [reflexivity | apply Z.eqb_neq in C; contradiction].
  - apply In_updateWhere in H. destruct H as [l0 [_ E]].
    destruct (Listing.id l0 =? PremiumPayment.listingId p) eqn:C;
      subst l; [reflexivity | apply Z.eqb_neq in C; contradiction].
  - apply In_updateWhere in H. destruct H as [l0 [_ E]].
    destruct (Listing.id l0 =? PremiumPayment.listingId p) eqn:C;
      subst l; [reflexivity | apply Z.eqb_neq in C; contradiction].
  - apply In_updateWhere in H. destruct H as [q0 [_ E]].
    destruct (isPayment id q0) eqn:C; subst q; [reflexivity|].
    unfold isPayment in C. apply Z.eqb_neq in C. contradiction.
  - apply In_updateWhere in H. destruct H as [q0 [_ E]].
    destruct (isPayment id q0) eqn:C; subst q; [reflexivity|].
    unfold isPayment in C. apply Z.eqb_neq in C. contradiction.
  - now apply paymentOf_approveWrite3.
Qed.

Lemma approval_activates_listing_witness :
  let d := snd (Sample.submit 1000 Sample.store) in
  let out := Sample.setStatus None 1 "approved" 2000 d in
  truthy (User.isAdmin Sample.admin) = true
  /\ tierOf (PremiumPayment.mk 1 7 2 1 "https://cdn/proof.png"
                               (Some "pending") 500 (Some 1000) None) d
     = Some Sample.tier30
  /\ Time.representable (Time.plusCalendarDays Time.utcZone 2000 30)
  /\ status (fst out) = 200
  /\ map Listing.premiumExpiresAt (listings (snd out))
     = [Some (2000 + 30 * 86400000)]
  /\ map PremiumPayment.expiresAt (premiumPayments (snd out))
     = [Some (2000 + 30 * 86400000)].
Proof.
  pose proof (approval_activates_listing Time.utcZone Sample.admin 1 2000
                (snd (Sample.submit 1000 Sample.store))
                (PremiumPayment.mk 1 7 2 1 "https://cdn/proof.png"
                                   (Some "pending") 500 (Some 1000) None)
                Sample.tier30 eq_refl eq_refl eq_refl) as H.
  cbv zeta in H.
  assert (He : Time.representable (Time.plusCalendarDays Time.utcZone 2000 30))
    by (apply Z.leb_le; reflexivity).
  destruct (H He) as [H1 [H2 [H3 _]]].
  split; [reflexivity|]. split; [reflexivity|].
  split; [exact He|].
  split; [exact H1|].
  unfold Sample.setStatus.
  split; [rewrite H2 | rewrite H3]; reflexivity.
Defined.
(** ** Atomicity of the approval *)

(** C2, counterexample. A payment is submitted and an admin approves it.
    When the listing update throws, the payment stays approved with no
    expiry and the listing is not premium; when the expiry update throws,
    the listing is premium and the payment has no expiry.  Either state is
    neither the one before the request nor the one of a whole approval. *)
Lemma approval_partial_state :
  let d := snd (Sample.submit 1000 Sample.store) in
  let whole := snd (Sample.setStatus None 1 "approved" 2000 d) in
  let d2 := snd (Sample.setStatus (Some 2%nat) 1 "approved" 2000 d) in
  let d3 := snd (Sample.setStatus (Some 3%nat) 1 "approved" 2000 d) in
  (map PremiumPayment.status (premiumPayments d2) = [Some "approved"]
   /\ map PremiumPayment.expiresAt (premiumPayments d2) = [None]
   /\ map Listing.isPremium (listings d2) = [Some false]
   /\ ~ (d2 = d \/ d2 = whole))
  /\ (map PremiumPayment.status (premiumPayments d3) = [Some "approved"]
      /\ map PremiumPayment.expiresAt (premiumPayments d3) = [None]
      /\ map Listing.isPremium (listings d3) = [Some true]
      /\ ~ (d3 = d \/ d3 = whole)).
Proof.
  cbv zeta.
  split; (split; [reflexivity|]); (split; [reflexivity|]);
    (split; [reflexivity|]); intros [H|H]; discriminate H.
Qed.

(** C2, amended. An approval is four statements, not one unit: the status
    update, the tier lookup, the listing update and the expiry update.
    When one of them throws the request answers 500 and the writes before
    it stay: the status alone after a failure of the lookup or the listing
    update, the status and the listing's premium fields after a failure of
    the expiry update.  Both rows reflect the approval only when nothing
    throws, and neither does only when the first statement throws.  When
    the expiry is no time a [Date] can hold, building the listing update
    throws and the status alone is written, whether or not a statement
    fails after the first. *)
Theorem approval_writes_in_order
    (LocalTZA : Z -> bool -> Z) (u : User.t) (id now : Z) (plan : option nat)
    (d : DB) (p : PremiumPayment.t) (tier : PremiumTier.t) :
  truthy (User.isAdmin u) = true ->
  paymentOf id d = Some p ->
  tierOf p d = Some tier ->
  let e := Time.plusCalendarDays LocalTZA now (PremiumTier.durationDays tier) in
  let out :=
    serve (putAdminPremiumPayment LocalTZA (Some u) id "approved" now) plan d in
  (Time.representable e ->
   match plan with
   | Some 0%nat =>
       status (fst out) = 500 /\ snd out = d
   | Some 1%nat | Some 2%nat =>
       status (fst out) = 500
       /\ snd out = approveWrite1 id d
       /\ listings (snd out) = listings d
       /\ paymentOf id (snd out) = Some (PremiumPayment.setStatus "approved" p)
   | Some 3%nat =>
       status (fst out) = 500
       /\ snd out = approveWrite2 p e (approveWrite1 id d)
       /\ paymentOf id (snd out) = Some (PremiumPayment.setStatus "approved" p)
   | _ =>
       status (fst out) = 200
       /\ snd out = approveWrite3 id e (approveWrite2 p e (approveWrite1 id d))
       /\ paymentOf id (snd out) = Some (approved e p)
   end)
  /\ (~ Time.representable e ->
      match plan with
      | Some 0%nat =>
          status (fst out) = 500 /\ snd out = d
      | _ =>
          status (fst out) = 500
          /\ snd out = approveWrite1 id d
          /\ listings (snd out) = listings d
          /\ paymentOf id (snd out)
             = Some (PremiumPayment.setStatus "approved" p)
      end).
Proof.
  intros Hadmin Hp Ht e out.
  pose proof (paymentOf_approveWrite1 id d p Hp) as H1.
  pose proof (paymentOf_approveWrite3 id e d p Hp) as H3.
  split; intros He.
  - pose proof (approve_run LocalTZA u id now plan d p tier Hadmin Hp Ht He)
      as R.
    cbv zeta in R. fold e in R. fold out in R.
    destruct plan as [[|[|[|[|k]]]]|]; rewrite R; cbn [fst snd status failed];
      repeat split; try assumption.
  - pose proof (approve_invalid_run LocalTZA u id now plan d p tier
                  Hadmin Hp Ht He) as R.
    fold out in R.
    destruct plan as [[|[|k]]|]; rewrite R; cbn [fst snd status failed];
      repeat split; try assumption.
Qed.

Lemma approval_writes_in_order_witness :
  let d := snd (Sample.submit 1000 Sample.store) in
  let out := Sample.setStatus (Some 2%nat) 1 "approved" 2000 d in
  tierOf (PremiumPayment.mk 1 7 2 1 "https://cdn/proof.png"
                            (Some "pending") 500 (Some 1000) None) d
  = Some Sample.tier30
  /\ Time.representable (Time.plusCalendarDays Time.utcZone 2000 30)
  /\ status (fst out) = 500
  /\ snd out = approveWrite1 1 d.
Proof.
  pose proof (approval_writes_in_order Time.utcZone Sample.admin 1 2000
                (Some 2%nat) (snd (Sample.submit 1000 Sample.store))
                (PremiumPayment.mk 1 7 2 1 "https://cdn/proof.png"
                                   (Some "pending") 500 (Some 1000) None)
                Sample.tier30 eq_refl eq_refl eq_refl) as H.
  cbv zeta iota in H.
  assert (He : Time.representable (Time.plusCalendarDays Time.utcZone 2000 30))
    by (apply Z.leb_le; reflexivity).
  destruct (proj1 H He) as [H1 [H2 _]].
  split; [reflexivity|]. split; [exact He|]. split; [exact H1 | exact H2].
Defined.

(** ** A payment that does not exist *)

(** C5, the code at the failing input. For a payment id that no row has,
    an approval answers 500 (reading [payment.tierId] of [undefined] throws)
    and any other status answers 200 with no payment in the body; neither
    answers 404.  No row changes. *)
Theorem missing_payment_not_404 :
  paymentOf 99 Sample.store = None
  /\ Sample.setStatus None 99 "approved" 2000 Sample.store
     = (failed TypeError, Sample.store)
  /\ Sample.setStatus None 99 "rejected" 2000 Sample.store
     = (mkResponse 200 (JPayment None), Sample.store).
Proof. repeat split; reflexivity. Qed.

(** The same for every store, admin and fault plan. *)
Lemma missing_payment_run
    (LocalTZA : Z -> bool -> Z) (u : User.t) (id now : Z) (s : string)
    (plan : option nat) (d : DB) :
  truthy (User.isAdmin u) = true ->
  paymentOf id d = None ->
  let out := serve (putAdminPremiumPayment LocalTZA (Some u) id s now) plan d in
  status (fst out) <> 404 /\ snd out = d.
Proof.
  intros Hadmin Hp out. subst out.
  destruct (String.eqb s "approved") eqn:Es.
  - apply String.eqb_eq in Es. subst s.
    rewrite (approve_missing_run LocalTZA u id now plan d Hadmin Hp).
    destruct plan as [[|k]|]; split; (discriminate || reflexivity).
  - rewrite (other_status_run LocalTZA u id now s plan d Hadmin Es).
    unfold paymentOf in Hp.
    rewrite (updateWhere_none _ _ _ Hp), withPayments_same.
    destruct plan as [[|k]|]; split; (discriminate || reflexivity).
Qed.

(** ** Rejection *)

Lemma sameButStatus_refl (q : PremiumPayment.t) : sameButStatus q q.
Proof. now destruct q. Qed.

Lemma sameButStatus_setStatus (s : string) (q : PremiumPayment.t) :
  sameButStatus q (PremiumPayment.setStatus s q).
Proof. reflexivity. Qed.

Lemma Forall2_updateWhere_status (c : PremiumPayment.t -> bool) (s : string)
    (rows : list PremiumPayment.t) :
  Forall2 sameButStatus rows
          (Sql.updateWhere c (PremiumPayment.setStatus s) rows).
Proof.
  induction rows as [|q rows IH]; cbn; constructor; [|exact IH].
  destruct (c q); [apply sameButStatus_setStatus | apply sameButStatus_refl].
Qed.

Lemma Forall2_refl {A} (R : A -> A -> Prop) (l : list A) :
  (forall a, R a a) -> Forall2 R l l.
Proof. intros H. induction l; constructor; auto. Qed.

(** C9. A request that sets a payment's status to rejected, whoever sends
    it and whatever throws, leaves the listings (so their [isPremium],
    [premiumTierId] and [premiumExpiresAt]) and the tiers as they were, and
    changes no field of any payment row other than [status]: every
    [expiresAt] stays.  Sent by an admin, with no fault, it sets the status
    of the payment. *)
Theorem rejection_changes_status_only
    (LocalTZA : Z -> bool -> Z) (user : option User.t) (id now : Z)
    (plan : option nat) (d : DB) :
  let out :=
    serve (putAdminPremiumPayment LocalTZA user id "rejected" now) plan d in
  listings (snd out) = listings d
  /\ premiumTiers (snd out) = premiumTiers d
  /\ Forall2 sameButStatus (premiumPayments d) (premiumPayments (snd out))
  /\ map PremiumPayment.expiresAt (premiumPayments (snd out))
     = map PremiumPayment.expiresAt (premiumPayments d)
  /\ (forall u, user = Some u -> truthy (User.isAdmin u) = true ->
                plan = None ->
                status (fst out) = 200
                /\ paymentOf id (snd out)
                   = option_map (PremiumPayment.setStatus "rejected")
                                (paymentOf id d)).
Proof.
  intros out.
  assert (Hmap : forall c rows,
             map PremiumPayment.expiresAt
                 (Sql.updateWhere c (PremiumPayment.setStatus "rejected") rows)
             = map PremiumPayment.expiresAt rows).
  { intros c rows. unfold Sql.updateWhere. rewrite map_map.
    apply map_ext. intros q. now destruct (c q). }
  destruct user as [u|].
  2:{ subst out. rewrite (not_admin_run LocalTZA None id now _ plan d I).
      cbn [snd]. repeat split; try discriminate.
      apply Forall2_refl, sameButStatus_refl. }
  destruct (truthy (User.isAdmin u)) eqn:Hadmin.
  2:{ subst out.
      rewrite (not_admin_run LocalTZA (Some u) id now _ plan d Hadmin).
      cbn [snd]. repeat split; try congruence.
      apply Forall2_refl, sameButStatus_refl. }
  subst out.
  rewrite (other_status_run LocalTZA u id now "rejected" plan d Hadmin eq_refl).
  destruct plan as [[|k]|]; cbn [fst snd status listings premiumTiers
                                  premiumPayments withPayments];
    repeat split; try discriminate;
    try (apply Forall2_refl, sameButStatus_refl);
    try apply Forall2_updateWhere_status; try apply Hmap.
  unfold paymentOf. cbn [premiumPayments withPayments].
  apply find_updateWhere. intros r. reflexivity.
Qed.

Lemma rejection_changes_status_only_witness :
  let d := snd (Sample.setStatus None 1 "approved" 2000
                  (snd (Sample.submit 1000 Sample.store))) in
  let out := Sample.setStatus None 1 "rejected" 5000 d in
  listings (snd out) = listings d
  /\ status (fst out) = 200
  /\ map PremiumPayment.status (premiumPayments (snd out)) = [Some "rejected"].
Proof.
  pose proof (rejection_changes_status_only Time.utcZone (Some Sample.admin)
                1 5000 None
                (snd (Sample.setStatus None 1 "approved" 2000
                        (snd (Sample.submit 1000 Sample.store))))) as H.
  cbv zeta in H. destruct H as [H1 [_ [_ [_ H5]]]].
  destruct (H5 Sample.admin eq_refl eq_refl eq_refl) as [H6 _].
  split; [exact H1|]. split; [exact H6 | reflexivity].
Defined.
(** ** The body of the answer to an approval *)

(** C10, counterexample. A payment approved a second time: the answer to
    the second approval carries the expiry of the first, not null. *)
Lemma reapproval_response_has_expiry :
  let d1 := snd (Sample.submit 1000 Sample.store) in
  let d2 := snd (Sample.setStatus None 1 "approved" 2000 d1) in
  let out := Sample.setStatus None 1 "approved" 5000 d2 in
  status (fst out) = 200
  /\ (exists q, body (fst out) = JPayment (Some q)
                /\ PremiumPayment.status q = Some "approved"
                /\ PremiumPayment.expiresAt q = Some (2000 + 30 * 86400000)
                /\ PremiumPayment.expiresAt q <> None)
  /\ map PremiumPayment.expiresAt (premiumPayments (snd out))
     = [Some (5000 + 30 * 86400000)].
Proof.
  cbv zeta. split; [reflexivity|]. split; [|reflexivity].
  eexists. split; [reflexivity|]. repeat split. discriminate.
Qed.

(** C10, amended. The body of every 200 answer to an approval is the
    payment row as the status update returned it: its status is approved
    and its [expiresAt] is the one the row had before the request (null for
    a payment never approved before), whereas the stored row has
    [expiresAt] set to the expiry computed by this request. *)
Theorem approval_response_precedes_expiry
    (LocalTZA : Z -> bool -> Z) (user : option User.t) (id now : Z)
    (plan : option nat) (d : DB) :
  let out :=
    serve (putAdminPremiumPayment LocalTZA user id "approved" now) plan d in
  status (fst out) = 200 ->
  exists p tier q,
    paymentOf id d = Some p
    /\ tierOf p d = Some tier
    /\ body (fst out) = JPayment (Some q)
    /\ q = PremiumPayment.setStatus "approved" p
    /\ PremiumPayment.status q = Some "approved"
    /\ PremiumPayment.expiresAt q = PremiumPayment.expiresAt p
    /\ paymentOf id (snd out)
       = Some (approved (Time.plusCalendarDays LocalTZA now
                           (PremiumTier.durationDays tier)) p).
Proof.
  intros out. subst out.
  destruct user as [u|];
    [| rewrite (not_admin_run LocalTZA None id now _ plan d I); discriminate].
  destruct (truthy (User.isAdmin u)) eqn:Hadmin;
    [| rewrite (not_admin_run LocalTZA (Some u) id now _ plan d Hadmin);
       discriminate].
  destruct (paymentOf id d) as [p|] eqn:Hp.
  2:{ rewrite (approve_missing_run LocalTZA u id now plan d Hadmin Hp).
      destruct plan as [[|k]|]; discriminate. }
  destruct (tierOf p d) as [tier|] eqn:Ht.
  2:{ rewrite (approve_no_tier_run LocalTZA u id now plan d p Hadmin Hp Ht).
      destruct plan as [[|[|k]]|]; discriminate. }
  intros H200.
  pose proof (approve_run LocalTZA u id now plan d p tier Hadmin Hp Ht
                (approve_ok_representable LocalTZA u id now plan d p tier
                   Hadmin Hp Ht H200)) as R.
  cbv zeta in R.
  exists p, tier, (PremiumPayment.setStatus "approved" p).
  destruct plan as [[|[|[|[|k]]]]|]; rewrite R in *;
    try discriminate H200; cbn [fst snd body];
    repeat split; try reflexivity; try assumption;
    now apply paymentOf_approveWrite3.
Qed.

Lemma approval_response_precedes_expiry_witness :
  let d := snd (Sample.submit 1000 Sample.store) in
  let out := Sample.setStatus None 1 "approved" 2000 d in
  status (fst out) = 200
  /\ exists q, body (fst out) = JPayment (Some q)
               /\ PremiumPayment.status q = Some "approved".
Proof.
  destruct (approval_response_precedes_expiry Time.utcZone (Some Sample.admin)
              1 2000 None (snd (Sample.submit 1000 Sample.store)) eq_refl)
    as [p [tier [q [_ [_ [Hb [_ [Hs _]]]]]]]].
  split; [reflexivity|]. exists q. split; [exact Hb | exact Hs].
Defined.
(** ** The expiry invariant *)

(** A submission answered 200 appended one pending payment without
    expiry. *)
Lemma submit_ok (uploadFile : string -> option string)
    (user : option User.t) (file : option string) (listingId tierId now : Z)
    (plan : option nat) (d : DB) :
  let out :=
    serve (postPremiumPayment uploadFile user file listingId tierId now)
          plan d in
  status (fst out) = 200 ->
  exists row,
    premiumPayments (snd out) = (premiumPayments d ++ [row])%list
    /\ PremiumPayment.status row = Some "pending"
    /\ PremiumPayment.expiresAt row = None.
Proof.
  intros out. subst out.
  unfold serve, postPremiumPayment, requireAuth, respond, tryCatch.
  destruct user as [u|]; [|discriminate].
  destruct file as [f|]; [|discriminate].
  unfold bind, await, selectTier, insertPayment, throw, ret.
  destruct (uploadFile f) as [url|]; [|discriminate].
  destruct plan as [[|[|k]]|];
    cbn -[Sql.selectLimit1 Sql.hasId]; try discriminate.
  all: rewrite hd_error_selectLimit1.
  all: destruct (find _ (premiumTiers d)) as [tier|];
    cbn -[Sql.hasId]; try discriminate.
  all: match goal with
       | |- context [if ?b then _ else _] => destruct b
       end; cbn; try discriminate.
  all: intros _; eexists; repeat split.
Qed.

Section Invariant.

Variable LocalTZA : Z -> bool -> Z.
Variable uploadFile : string -> option string.

Lemma setStatus_ok_keeps (user : option User.t) (id now : Z) (s : string)
    (plan : option nat) (d : DB) :
  let out := serve (putAdminPremiumPayment LocalTZA user id s now) plan d in
  status (fst out) = 200 ->
  approvedHasExpiry d -> approvedHasExpiry (snd out).
Proof.
  intros out. subst out.
  destruct user as [u|];
    [| rewrite (not_admin_run LocalTZA None id now _ plan d I); discriminate].
  destruct (truthy (User.isAdmin u)) eqn:Hadmin;
    [| rewrite (not_admin_run LocalTZA (Some u) id now _ plan d Hadmin);
       discriminate].
  destruct (String.eqb s "approved") eqn:Es.
  - apply String.eqb_eq in Es. subst s.
    destruct (paymentOf id d) as [p|] eqn:Hp.
    2:{ rewrite (approve_missing_run LocalTZA u id now plan d Hadmin Hp).
        destruct plan as [[|k]|]; discriminate. }
    destruct (tierOf p d) as [tier|] eqn:Ht.
    2:{ rewrite (approve_no_tier_run LocalTZA u id now plan d p Hadmin Hp Ht).
        destruct plan as [[|[|k]]|]; discriminate. }
    intros H200.
    pose proof (approve_run LocalTZA u id now plan d p tier Hadmin Hp Ht
                  (approve_ok_representable LocalTZA u id now plan d p tier
                     Hadmin Hp Ht H200)) as R.
    cbv zeta in R. revert H200. rewrite R.
    destruct plan as [[|[|[|[|k]]]]|]; try discriminate.
    all: intros _ Inv q Hq Hs; cbn [snd] in Hq.
    all: cbn [approveWrite3 approveWrite2 approveWrite1 withPayments
                withListings premiumPayments] in Hq.
    all: rewrite (updateWhere_twice (isPayment id)
                    (PremiumPayment.setStatus "approved")
                    (PremiumPayment.setExpiresAt _) (premiumPayments d)
                    (isPayment_setStatus id "approved")) in Hq.
    all: apply In_updateWhere in Hq; destruct Hq as [q0 [Hq0 E0]].
    all: destruct (isPayment id q0); subst q; [discriminate | auto].
  - rewrite (other_status_run LocalTZA u id now s plan d Hadmin Es).
    destruct plan as [[|k]|]; try discriminate.
    all: intros _ Inv q Hq Hs; cbn [snd withPayments premiumPayments] in Hq.
    all: apply In_updateWhere in Hq; destruct Hq as [q0 [Hq0 E0]].
    all: destruct (isPayment id q0); subst q; auto.
    all: cbn in Hs; injection Hs as Hs; subst s; discriminate.
Qed.

Lemma runPaymentOp_ok_keeps (op : PaymentOp) (d : DB) :
  status (fst (runPaymentOp LocalTZA uploadFile op d)) = 200 ->
  approvedHasExpiry d ->
  approvedHasExpiry (snd (runPaymentOp LocalTZA uploadFile op d)).
Proof.
  destruct op as [user file listingId tierId now plan
                 | user id s now plan]; cbn [runPaymentOp].
  - intros H Inv.
    destruct (submit_ok uploadFile user file listingId tierId now plan d H)
      as [row [E [Hs _]]].
    intros q Hq. rewrite E in Hq. apply in_app_or in Hq.
    destruct Hq as [Hq|[<-|[]]]; [now apply Inv|].
    rewrite Hs. discriminate.
  - apply setStatus_ok_keeps.
Qed.

End Invariant.

(** C8, counterexample. Submit, approve, reject: the payment ends up
    rejected with the expiry of the approval still set. *)
Lemma rejected_payment_keeps_expiry :
  exists d',
    runPaymentOps Time.utcZone Sample.upload
      [ Submit (Some Sample.seller) (Some "proof.png") 7 1 1000 None;
        SetStatus (Some Sample.admin) 1 "approved" 2000 None;
        SetStatus (Some Sample.admin) 1 "rejected" 3000 None ]
      Sample.store = Some d'
    /\ map PremiumPayment.status (premiumPayments d') = [Some "rejected"]
    /\ map PremiumPayment.expiresAt (premiumPayments d')
       = [Some (2000 + 30 * 86400000)]
    /\ ~ expirySetIffApproved d'.
Proof.
  eexists. split; [reflexivity|]. split; [reflexivity|]. split; [reflexivity|].
  intros Inv.
  specialize (Inv _ (or_introl eq_refl)). cbn in Inv.
  destruct Inv as [Inv _].
  assert (H : Some "rejected" = Some "approved") by (apply Inv; discriminate).
  discriminate H.
Qed.

(** C8, amended. Over every sequence of submit and setStatus requests that
    are each answered 200, starting from payments of which every approved
    one has an expiry, every approved payment has a non-null [expiresAt].
    The converse does not hold: a status set after an approval leaves the
    expiry in place. *)
Theorem approved_payment_has_expiry
    (LocalTZA : Z -> bool -> Z) (uploadFile : string -> option string)
    (ops : list PaymentOp) (d d' : DB) :
  approvedHasExpiry d ->
  runPaymentOps LocalTZA uploadFile ops d = Some d' ->
  approvedHasExpiry d'.
Proof.
  revert d. induction ops as [|op ops IH]; intros d Inv Run; cbn in Run.
  - now injection Run as <-.
  - pose proof (runPaymentOp_ok_keeps LocalTZA uploadFile op d) as K.
    destruct (runPaymentOp LocalTZA uploadFile op d) as [r d1].
    cbn [fst snd] in K.
    destruct (status r =? 200) eqn:E; [|discriminate].
    apply Z.eqb_eq in E. exact (IH d1 (K E Inv) Run).
Qed.

Lemma approved_payment_has_expiry_witness :
  approvedHasExpiry Sample.store
  /\ exists d',
       runPaymentOps Time.utcZone Sample.upload
         [ Submit (Some Sample.seller) (Some "proof.png") 7 1 1000 None;
           SetStatus (Some Sample.admin) 1 "approved" 2000 None ]
         Sample.store = Some d'
       /\ approvedHasExpiry d'.
Proof.
  assert (H0 : approvedHasExpiry Sample.store) by (intros p []).
  split; [exact H0|].
  eexists. split; [reflexivity|].
  apply (approved_payment_has_expiry Time.utcZone Sample.upload
           [ Submit (Some Sample.seller) (Some "proof.png") 7 1 1000 None;
             SetStatus (Some Sample.admin) 1 "approved" 2000 None ]
           Sample.store); [exact H0 | reflexivity].
Defined.
(** ** Recording a view *)

Lemma sameVisitor_spec (l : Z) (ip : string) (v : ListingView.t) :
  sameVisitor l ip v = true
  <-> ListingView.listingId v = l /\ ListingView.ipAddress v = ip.
Proof.
  unfold sameVisitor.
  rewrite andb_true_iff, Z.eqb_eq, String.eqb_eq. tauto.
Qed.

Lemma isPreviousView_spec (l : Z) (ip : string) (now : Z)
    (v : ListingView.t) :
  isPreviousView l ip now v = true
  <-> ListingView.listingId v = l
      /\ ListingView.ipAddress v = ip
      /\ exists c, ListingView.createdAt v = Some c
                   /\ now - Time.interval_7_days < c
                      < now - Time.interval_24_hours.
Proof.
  unfold isPreviousView.
  rewrite !andb_true_iff, sameVisitor_spec.
  unfold Sql.tsAfter, Sql.tsBefore.
  destruct (ListingView.createdAt v) as [c|].
  - rewrite !Z.ltb_lt. split.
    + intros [[[H1 H2] H3] H4]. repeat split; try assumption.
      exists c. repeat split; assumption.
    + intros [H1 [H2 [c' [E [H3 H4]]]]]. injection E as <-. tauto.
  - split.
    + intros [[_ H] _]. discriminate H.
    + intros [_ [_ [c' [E _]]]]. discriminate E.
Qed.

Lemma isRecentView_spec (l : Z) (ip : string) (now : Z)
    (v : ListingView.t) :
  isRecentView l ip now v = true
  <-> ListingView.listingId v = l
      /\ ListingView.ipAddress v = ip
      /\ exists c, ListingView.createdAt v = Some c
                   /\ now - Time.interval_1_hour < c.
Proof.
  unfold isRecentView.
  rewrite !andb_true_iff, sameVisitor_spec.
  unfold Sql.tsAfter.
  destruct (ListingView.createdAt v) as [c|].
  - rewrite Z.ltb_lt. split.
    + intros [[H1 H2] H3]. repeat split; try assumption. now exists c.
    + intros [H1 [H2 [c' [E H3]]]]. injection E as <-. tauto.
  - split.
    + intros [_ H]. discriminate H.
    + intros [_ [_ [c' [E _]]]]. discriminate E.
Qed.

(** The handler evaluates [geoip] before its first statement, and every
    request ends there. *)
Lemma view_run (user : option User.t) (l : Z) (ip : string)
    (userAgent : option string) (now : Z) (plan : option nat) (d : DB) :
  serve (postListingView user l ip userAgent now) plan d
  = (trackFailed ReferenceError, d).
Proof. reflexivity. Qed.

(** C3, the code at the failing input. A visitor's view of the phone is
    20 seconds old and still open; the same visitor views the phone again
    1.6 seconds later.  The request finds no [geoip] to call: it answers
    500, and the open view keeps its null [viewEndTime] and
    [sessionDuration]. *)
Theorem revisit_within_hour_throws :
  let d := Sample.tenAndNull in
  let out := Sample.view "10.0.0.2" 21600 d in
  find (isRecentView 7 "10.0.0.2" 21600) (listingViews d)
  = Some (Sample.viewRow 2 "10.0.0.2" 20000 None)
  /\ out = (trackFailed ReferenceError, d)
  /\ map ListingView.viewEndTime (viewsOf 7 (snd out)) = [Some 10000; None]
  /\ map ListingView.sessionDuration (viewsOf 7 (snd out)) = [Some 10; None].
Proof. cbv zeta. repeat split; reflexivity. Qed.

(** C4, the code at the failing input. A first view of the phone, and a
    view two days after the visitor's last one: neither request has a view
    of the last hour to update, and neither inserts a row; both answer
    500. *)
Theorem new_view_throws :
  let first := Sample.view "10.0.0.1" 1000 Sample.store in
  let d := Sample.tenAndNull in
  let back := Sample.view "10.0.0.1" (2 * Time.msPerDay) d in
  (find (isRecentView 7 "10.0.0.1" 1000) (listingViews Sample.store) = None
   /\ first = (trackFailed ReferenceError, Sample.store)
   /\ listingViews (snd first) = [])
  /\ (find (isRecentView 7 "10.0.0.1" (2 * Time.msPerDay)) (listingViews d)
      = None
      /\ find (isPreviousView 7 "10.0.0.1" (2 * Time.msPerDay))
              (listingViews d)
         = Some (Sample.viewRow 1 "10.0.0.1" 0 (Some (10000, 10)))
      /\ back = (trackFailed ReferenceError, d)
      /\ listingViews (snd back) = listingViews d).
Proof. cbv zeta. repeat split; reflexivity. Qed.

(** ** The analytics report *)

Lemma notOwner_owns (u : User.t) (l : Z) (d : DB) :
  notOwner (listingOf l d) u = false <-> owns u l d.
Proof.
  unfold owns, notOwner.
  destruct (listingOf l d) as [row|].
  - destruct (Listing.userId row) as [o|] eqn:E.
    + rewrite negb_false_iff, Z.eqb_eq. split.
      * intros ->. exists row. now rewrite E.
      * intros [row' [R H]]. injection R as <-. congruence.
    + split; [discriminate|].
      intros [row' [R H]]. injection R as <-. congruence.
  - split; [discriminate|]. intros [row' [R _]]. discriminate R.
Qed.

(** The analytics request, fault by fault: the ownership check follows the
    first statement, the report the sixth. *)
Lemma analytics_run (u : User.t) (l now : Z) (plan : option nat) (d : DB) :
  serve (getListingAnalytics (Some u) l now) plan d
  = match plan with
    | Some 0%nat => (analyticsFailed DbError, d)
    | _ =>
        if notOwner (listingOf l d) u then
          (mkResponse 403 (JMessage "Unauthorized"), d)
        else
          match plan with
          | Some 1%nat | Some 2%nat | Some 3%nat | Some 4%nat | Some 5%nat =>
              (analyticsFailed DbError, d)
          | _ => (mkResponse 200 (JReport (reportOf l now d)), d)
          end
    end.
Proof.
  unfold serve, getListingAnalytics, requireAuth, tryCatch, bind, await,
    selectListing, selectViewTotals, selectHourlyViews, selectDailyViews,
    selectGeoDistribution, selectMessageCount, ret, listingOf.
  destruct plan as [[|[|[|[|[|[|k]]]]]]|];
    cbn -[Sql.selectLimit1 notOwner viewTotals hourlyViewsOf dailyViewsOf
          geoDistributionOf messageCountOf];
    rewrite ?hd_error_selectLimit1; try reflexivity.
  all: destruct (notOwner _ u); reflexivity.
Qed.

Lemma somes_app {A} (xs ys : list (option A)) :
  Sql.somes (xs ++ ys) = (Sql.somes xs ++ Sql.somes ys)%list.
Proof.
  induction xs as [|[a|] xs IH]; cbn; [reflexivity | now rewrite IH | exact IH].
Qed.

Lemma somes_nulls {A B} (f : A -> option B) (xs : list A) :
  Forall (fun x => f x = None) xs -> Sql.somes (map f xs) = [].
Proof.
  induction 1 as [|x xs Hx _ IH]; cbn; [reflexivity|]. now rewrite Hx.
Qed.

(** Rows without a duration do not move the average. *)
Lemma avgInt_skips_nulls (l : Z) (d : DB) (extra : list ListingView.t)
    (next : Z) :
  Forall (fun v => ListingView.sessionDuration v = None) extra ->
  avgDuration (viewTotals l (withViews d (listingViews d ++ extra) next))
  = avgDuration (viewTotals l d).
Proof.
  intros Hnull.
  unfold viewTotals, viewsOf, Sql.avgInt.
  cbn [avgDuration listingViews withViews].
  rewrite filter_app, map_app, somes_app.
  rewrite (somes_nulls ListingView.sessionDuration (filter _ extra)).
  - now rewrite app_nil_r.
  - apply Forall_forall. intros v Hv. apply filter_In in Hv.
    rewrite Forall_forall in Hnull. now apply Hnull.
Qed.

(** C6, counterexample. Durations 1, 2 and 2 average to 5/3: the report
    says 2, truncation says 1. *)
Lemma average_duration_not_truncated :
  map ListingView.sessionDuration (listingViews Sample.visited)
  = [Some 1; Some 2; Some 2]
  /\ (exists report,
        body (fst (Sample.analytics Sample.seller 7 20000 Sample.visited))
        = JReport report
        /\ avgDuration (views report) = Some 2)
  /\ truncatedAverage [1; 2; 2] = 1.
Proof.
  split; [reflexivity|]. split; [|reflexivity].
  eexists. split; reflexivity.
Qed.

(** C6, amended. In the report of a listing, [avgDuration] is the mean of
    the [sessionDuration] of the listing's views that have one, rounded to
    the nearest integer, and null when none has one.  Views without a
    duration count neither in the sum nor in the number: adding any of
    them leaves the average as it was (durations 10 and null give 10). *)
Theorem average_duration_skips_nulls (u : User.t) (l now : Z) (d : DB) :
  owns u l d ->
  exists report,
    body (fst (serve (getListingAnalytics (Some u) l now) None d))
    = JReport report
    /\ (let ds := Sql.somes (map ListingView.sessionDuration (viewsOf l d)) in
        let n := Z.of_nat (List.length ds) in
        match avgDuration (views report) with
        | None => ds = []
        | Some a =>
            ds <> []
            /\ a = Time.pg_round_div (Sql.sum ds) n
            /\ 2 * Z.abs (n * a - Sql.sum ds) <= n
        end)
    /\ (forall extra next,
          Forall (fun v => ListingView.sessionDuration v = None) extra ->
          avgDuration
            (viewTotals l (withViews d (listingViews d ++ extra) next))
          = avgDuration (views report)).
Proof.
  intros Hown. apply notOwner_owns in Hown.
  exists (reportOf l now d).
  rewrite analytics_run, Hown. cbn [fst body].
  split; [reflexivity|]. split.
  - cbn [views reportOf avgDuration viewTotals]. unfold Sql.avgInt.
    destruct (Sql.somes (map ListingView.sessionDuration (viewsOf l d)))
      as [|x xs] eqn:E; [reflexivity|].
    split; [discriminate|]. split; [reflexivity|].
    apply TimeFacts.pg_round_div_nearest. cbn [List.length]. lia.
  - intros extra next Hnull. now apply avgInt_skips_nulls.
Qed.

Lemma average_duration_skips_nulls_witness :
  owns Sample.seller 7 Sample.tenAndNull
  /\ map ListingView.sessionDuration (listingViews Sample.tenAndNull)
     = [Some 10; None]
  /\ exists report,
       body (fst (Sample.analytics Sample.seller 7 20000 Sample.tenAndNull))
       = JReport report
       /\ avgDuration (views report) = Some 10.
Proof.
  assert (Hown : owns Sample.seller 7 Sample.tenAndNull)
    by (exists Sample.phone; split; reflexivity).
  split; [exact Hown|]. split; [reflexivity|].
  destruct (average_duration_skips_nulls Sample.seller 7 20000
              Sample.tenAndNull Hown) as [report [Hb [Havg _]]].
  exists report. split; [exact Hb|].
  cbv zeta in Havg.
  destruct (avgDuration (views report)) as [a|].
  - destruct Havg as [_ [Ha _]]. rewrite Ha. reflexivity.
  - discriminate Havg.
Defined.

(** C7. For a signed-in requester and no fault, the analytics request
    answers 403 exactly when the requester does not own the listing (a
    listing that does not exist has no owner); for the owner it answers 200
    with a report, and with no view of the listing the report has zero
    totals, a null average and empty breakdowns.  Whoever asks and whatever
    throws, the answer is never 404. *)
Theorem analytics_owner_only (u : User.t) (l now : Z) (d : DB) :
  let out := serve (getListingAnalytics (Some u) l now) None d in
  (status (fst out) = 403 <-> ~ owns u l d)
  /\ (owns u l d ->
      status (fst out) = 200 /\ body (fst out) = JReport (reportOf l now d))
  /\ (owns u l d -> viewsOf l d = [] ->
      body (fst out)
      = JReport (mkReport (mkTotals 0 0 0 None) [] [] []
                          (messageCountOf l d)))
  /\ (forall user plan,
        status (fst (serve (getListingAnalytics user l now) plan d)) <> 404).
Proof.
  intros out. subst out. rewrite analytics_run.
  pose proof (notOwner_owns u l d) as O.
  destruct (notOwner (listingOf l d) u); cbn [fst status body].
  - split; [|split; [|split]].
    + split; [intros _ H; apply O in H; discriminate H | reflexivity].
    + intros H. apply O in H. discriminate H.
    + intros H. apply O in H. discriminate H.
    + intros [u'|] plan; [|discriminate].
      rewrite analytics_run.
      destruct plan as [[|[|[|[|[|[|k]]]]]]|];
        destruct (notOwner (listingOf l d) u'); discriminate.
  - split; [|split; [|split]].
    + split; [discriminate|]. intros H. elim H. now apply O.
    + intros _. split; reflexivity.
    + intros _ Hnone. unfold reportOf, viewTotals, hourlyViewsOf,
        dailyViewsOf, geoDistributionOf, createdSince.
      rewrite Hnone. reflexivity.
    + intros [u'|] plan; [|discriminate].
      rewrite analytics_run.
      destruct plan as [[|[|[|[|[|[|k]]]]]]|];
        destruct (notOwner (listingOf l d) u'); discriminate.
Qed.

Lemma analytics_owner_only_witness :
  owns Sample.seller 7 Sample.store
  /\ status (fst (Sample.analytics Sample.seller 7 5000 Sample.store)) = 200
  /\ body (fst (Sample.analytics Sample.seller 7 5000 Sample.store))
     = JReport (mkReport (mkTotals 0 0 0 None) [] [] [] 0)
  /\ status (fst (Sample.analytics Sample.admin 7 5000 Sample.store)) = 403.
Proof.
  assert (Hown : owns Sample.seller 7 Sample.store)
    by (exists Sample.phone; split; reflexivity).
  destruct (analytics_owner_only Sample.seller 7 5000 Sample.store)
    as [_ [H2 [H3 _]]].
  destruct (analytics_owner_only Sample.admin 7 5000 Sample.store)
    as [[_ H1] _].
  split; [exact Hown|]. split; [exact (proj1 (H2 Hown))|].
  split; [exact (H3 Hown eq_refl)|].
  apply H1. intros [row [R E]]. injection R as <-. discriminate E.
Defined.
(** * Further properties *)

(** ** Submitting a payment *)

(** X1. A submission answered 200 came from a signed-in user with a proof
    file whose upload succeeded and for a tier that exists; it appended one
    payment, and nothing else changed: the payment carries the next
    identity value, the listing, the user, the tier, the uploaded proof,
    status pending, no expiry and, as amount, the price the tier has at
    that moment. *)
Theorem submit_copies_tier_price
    (uploadFile : string -> option string) (user : option User.t)
    (file : option string) (listingId tierId now : Z) (plan : option nat)
    (d : DB) :
  let out :=
    serve (postPremiumPayment uploadFile user file listingId tierId now)
          plan d in
  status (fst out) = 200 ->
  exists u f url tier,
    user = Some u
    /\ file = Some f
    /\ uploadFile f = Some url
    /\ find (fun t => PremiumTier.id t =? tierId) (premiumTiers d) = Some tier
    /\ Sql.hasId Listing.id listingId (listings d) = true
    /\ body (fst out)
       = JPayment
           (Some (PremiumPayment.mk (premiumPayments_seq d) listingId
                    (User.id u) tierId url (Some "pending")
                    (PremiumTier.price tier) (Some now) None))
    /\ snd out
       = withPayments d
           (premiumPayments d
            ++ [PremiumPayment.mk (premiumPayments_seq d) listingId
                  (User.id u) tierId url (Some "pending")
                  (PremiumTier.price tier) (Some now) None])
           (premiumPayments_seq d + 1).
Proof.
  intros out. subst out.
  unfold serve, postPremiumPayment, requireAuth, respond, tryCatch.
  destruct user as [u|]; [|discriminate].
  destruct file as [f|]; [|discriminate].
  unfold bind, await, selectTier, insertPayment, throw, ret.
  destruct (uploadFile f) as [url|] eqn:Eu; [|discriminate].
  destruct plan as [[|[|k]]|];
    cbn -[Sql.selectLimit1 Sql.hasId]; try discriminate.
  all: rewrite hd_error_selectLimit1.
  all: destruct (find _ (premiumTiers d)) as [tier|] eqn:Et;
    cbn -[Sql.hasId]; try discriminate.
  all: destruct (Sql.hasId PremiumPayment.id _ _); cbn -[Sql.hasId];
    try discriminate.
  all: destruct (Sql.hasId Listing.id listingId (listings d)) eqn:El;
    cbn -[Sql.hasId]; try discriminate.
  all: destruct (Sql.hasId PremiumTier.id tierId (premiumTiers d));
    cbn; try discriminate.
  all: intros _; exists u, f, url, tier; repeat split; assumption.
Qed.

Lemma submit_copies_tier_price_witness :
  status (fst (Sample.submit 1000 Sample.store)) = 200
  /\ map PremiumPayment.amount
         (premiumPayments (snd (Sample.submit 1000 Sample.store)))
     = [PremiumTier.price Sample.tier30].
Proof.
  destruct (submit_copies_tier_price Sample.upload (Some Sample.seller)
              (Some "proof.png") 7 1 1000 None Sample.store eq_refl)
    as [u [f [url [tier [_ [_ [_ [Ht [_ [_ Hd]]]]]]]]]].
  split; [reflexivity|].
  unfold Sample.submit. rewrite Hd.
  cbn in Ht. injection Ht as <-. reflexivity.
Defined.

(** X2. A submission that is not answered 200 changes no row of any
    table; it leaves the identity sequence of the payments where it was or
    one further.  Without a session it is answered 401, without a proof
    file 400; a failed upload, an unknown tier (reading [price] of no row
    throws) and an unknown listing (the insert is rejected) are all
    answered 500.  The rejected insert for an unknown listing has taken an
    identity value: the next payment skips it. *)
Theorem submit_failure_keeps_rows
    (uploadFile : string -> option string) (user : option User.t)
    (file : option string) (listingId tierId now : Z) (plan : option nat)
    (d : DB) :
  let out :=
    serve (postPremiumPayment uploadFile user file listingId tierId now)
          plan d in
  (status (fst out) <> 200 ->
   sameRows d (snd out)
   /\ listingViews_seq (snd out) = listingViews_seq d
   /\ (premiumPayments_seq (snd out) = premiumPayments_seq d
       \/ premiumPayments_seq (snd out) = premiumPayments_seq d + 1))
  /\ (user = None -> status (fst out) = 401)
  /\ (user <> None -> file = None -> status (fst out) = 400)
  /\ (forall f, user <> None -> file = Some f ->
        uploadFile f = None
        \/ find (fun t => PremiumTier.id t =? tierId) (premiumTiers d) = None
        \/ Sql.hasId Listing.id listingId (listings d) = false ->
        status (fst out) = 500)
  /\ (forall f url tier, user <> None -> file = Some f ->
        uploadFile f = Some url ->
        find (fun t => PremiumTier.id t =? tierId) (premiumTiers d)
        = Some tier ->
        Sql.hasId Listing.id listingId (listings d) = false ->
        plan = None ->
        snd out
        = withPayments d (premiumPayments d) (premiumPayments_seq d + 1)).
Proof.
  intros out. subst out.
  unfold serve, postPremiumPayment, requireAuth, respond, tryCatch, sameRows.
  destruct user as [u|].
  2:{ cbn. repeat split; try reflexivity; try tauto; intros; congruence. }
  destruct file as [f|].
  2:{ cbn. repeat split; try reflexivity; try tauto; intros; congruence. }
  unfold bind, await, selectTier, insertPayment, throw, ret.
  destruct (uploadFile f) as [url|] eqn:Eu.
  2:{ cbn. repeat split; try reflexivity; try tauto; intros; congruence. }
  destruct plan as [[|[|k]]|]; cbn -[Sql.selectLimit1 Sql.hasId].
  all: rewrite ?hd_error_selectLimit1.
  all: try (repeat split; try reflexivity; try tauto; intros; congruence).
  all: destruct (find _ (premiumTiers d)) as [tier|] eqn:Et;
    cbn -[Sql.hasId].
  all: try (repeat split; try reflexivity; try tauto; intros; congruence).
  all: destruct (Sql.hasId PremiumPayment.id _ _); cbn -[Sql.hasId].
  all: try (repeat split; try reflexivity; try tauto; intros; congruence).
  all: destruct (Sql.hasId Listing.id listingId (listings d)) eqn:El;
    cbn -[Sql.hasId].
  all: try (repeat split; try reflexivity; try tauto; intros; congruence).
  all: destruct (Sql.hasId PremiumTier.id tierId (premiumTiers d)); cbn.
  all: repeat split; try reflexivity; try tauto; try congruence.
  all: try (intros f0 _ E [H|[H|H]]; congruence).
  all: try (intros H; now elim H).
Qed.

Lemma submit_failure_keeps_rows_witness :
  let out := serve (postPremiumPayment Sample.upload (Some Sample.seller)
                      (Some "proof.png") 8 1 1000) None Sample.store in
  status (fst out) = 500
  /\ premiumPayments (snd out) = []
  /\ premiumPayments_seq Sample.store = 1
  /\ premiumPayments_seq (snd out) = 2.
Proof.
  destruct (submit_failure_keeps_rows Sample.upload (Some Sample.seller)
              (Some "proof.png") 8 1 1000 None Sample.store)
    as [H1 [_ [_ [H4 H5]]]].
  assert (H : status (fst (serve (postPremiumPayment Sample.upload
                                    (Some Sample.seller) (Some "proof.png")
                                    8 1 1000) None Sample.store)) = 500).
  { apply (H4 "proof.png"); [discriminate | reflexivity |].
    right. right. reflexivity. }
  assert (Hne : status (fst (serve (postPremiumPayment Sample.upload
                                      (Some Sample.seller) (Some "proof.png")
                                      8 1 1000) None Sample.store)) <> 200)
    by (rewrite H; discriminate).
  destruct (H1 Hne) as [[_ [_ [Hp _]]] _].
  cbv zeta. split; [exact H|]. split; [exact Hp|]. split; [reflexivity|].
  rewrite (H5 "proof.png" "https://cdn/proof.png" Sample.tier30);
    try reflexivity. discriminate.
Defined.
(** ** The status route beyond approval and rejection *)

Lemma Forall2_updateWhere {A} (R : A -> A -> Prop) (c : A -> bool)
    (f : A -> A) (rows : list A) :
  (forall r, R r r) -> (forall r, R r (f r)) ->
  Forall2 R rows (Sql.updateWhere c f rows).
Proof.
  intros Hrefl Hf. induction rows as [|r rows IH]; cbn; constructor;
    [destruct (c r); auto | exact IH].
Qed.

Lemma Forall2_compose {A} (R : A -> A -> Prop) (l1 l2 l3 : list A) :
  (forall a b c, R a b -> R b c -> R a c) ->
  Forall2 R l1 l2 -> Forall2 R l2 l3 -> Forall2 R l1 l3.
Proof.
  intros Htrans H12. revert l3.
  induction H12 as [|a b l1 l2 Hab _ IH]; intros l3 H23;
    inversion H23; subst; constructor; eauto.
Qed.

Lemma samePaymentCore_refl (q : PremiumPayment.t) : samePaymentCore q q.
Proof. repeat split. Qed.

Lemma samePaymentCore_trans (a b c : PremiumPayment.t) :
  samePaymentCore a b -> samePaymentCore b c -> samePaymentCore a c.
Proof. unfold samePaymentCore. intuition congruence. Qed.

Lemma sameListingCore_refl (l : Listing.t) : sameListingCore l l.
Proof. repeat split. Qed.

Lemma payments_core_status (c : PremiumPayment.t -> bool) (s : string)
    (rows : list PremiumPayment.t) :
  Forall2 samePaymentCore rows
          (Sql.updateWhere c (PremiumPayment.setStatus s) rows).
Proof.
  apply Forall2_updateWhere; [apply samePaymentCore_refl|].
  intros r. repeat split.
Qed.

Lemma payments_core_expiry (c : PremiumPayment.t -> bool) (e : Z)
    (rows : list PremiumPayment.t) :
  Forall2 samePaymentCore rows
          (Sql.updateWhere c (PremiumPayment.setExpiresAt e) rows).
Proof.
  apply Forall2_updateWhere; [apply samePaymentCore_refl|].
  intros r. repeat split.
Qed.

Lemma listings_core_premium (c : Listing.t -> bool) (t e : Z)
    (rows : list Listing.t) :
  Forall2 sameListingCore rows
          (Sql.updateWhere c (Listing.setPremium t e) rows).
Proof.
  apply Forall2_updateWhere; [apply sameListingCore_refl|].
  intros r. repeat split.
Qed.

(** X3. Whatever the status asked for, whoever asks and whatever throws,
    the status route neither adds nor removes a row: every payment keeps
    its id, listing, user, tier, proof, amount and creation time, every
    listing its id, title and owner, and tiers, views and messages stay as
    they are. *)
Theorem setStatus_keeps_rows
    (LocalTZA : Z -> bool -> Z) (user : option User.t) (id now : Z)
    (s : string) (plan : option nat) (d : DB) :
  let d' := snd (serve (putAdminPremiumPayment LocalTZA user id s now) plan d) in
  Forall2 samePaymentCore (premiumPayments d) (premiumPayments d')
  /\ Forall2 sameListingCore (listings d) (listings d')
  /\ premiumTiers d' = premiumTiers d
  /\ listingViews d' = listingViews d
  /\ messages d' = messages d
  /\ premiumPayments_seq d' = premiumPayments_seq d
  /\ listingViews_seq d' = listingViews_seq d.
Proof.
  intros d'. subst d'.
  assert (Same : Forall2 samePaymentCore (premiumPayments d) (premiumPayments d)
                 /\ Forall2 sameListingCore (listings d) (listings d)).
  { split; [apply Forall2_refl, samePaymentCore_refl
           | apply Forall2_refl, sameListingCore_refl]. }
  assert (W1 : Forall2 samePaymentCore (premiumPayments d)
                 (premiumPayments (approveWrite1 id d)))
    by apply payments_core_status.
  assert (W3 : forall p e,
             Forall2 samePaymentCore (premiumPayments d)
               (premiumPayments
                  (approveWrite3 id e (approveWrite2 p e (approveWrite1 id d))))).
  { intros p e. apply (Forall2_compose _ _ _ _ samePaymentCore_trans W1).
    apply payments_core_expiry. }
  assert (L2 : forall p e,
             Forall2 sameListingCore (listings d)
               (listings (approveWrite2 p e (approveWrite1 id d))))
    by (intros p e; apply listings_core_premium).
  destruct Same as [SP SL].
  destruct user as [u|];
    [| rewrite (not_admin_run LocalTZA None id now s plan d I);
       repeat split; assumption].
  destruct (truthy (User.isAdmin u)) eqn:Hadmin;
    [| rewrite (not_admin_run LocalTZA (Some u) id now s plan d Hadmin);
       repeat split; assumption].
  destruct (String.eqb s "approved") eqn:Es.
  - apply String.eqb_eq in Es. subst s.
    destruct (paymentOf id d) as [p|] eqn:Hp.
    2:{ rewrite (approve_missing_run LocalTZA u id now plan d Hadmin Hp).
        destruct plan as [[|k]|]; repeat split; assumption. }
    destruct (tierOf p d) as [tier|] eqn:Ht.
    2:{ rewrite (approve_no_tier_run LocalTZA u id now plan d p Hadmin Hp Ht).
        destruct plan as [[|[|k]]|]; repeat split; assumption. }
    destruct (Z_le_gt_dec
                (Z.abs (Time.plusCalendarDays LocalTZA now
                          (PremiumTier.durationDays tier)))
                Time.maxTime) as [He|He].
    2:{ rewrite (approve_invalid_run LocalTZA u id now plan d p tier
                   Hadmin Hp Ht)
          by (unfold Time.representable; lia).
        destruct plan as [[|[|k]]|]; cbn [snd]; repeat split; assumption. }
    pose proof (approve_run LocalTZA u id now plan d p tier Hadmin Hp Ht He)
      as R.
    cbv zeta in R. rewrite R.
    destruct plan as [[|[|[|[|k]]]]|]; cbn [snd];
      repeat split; try assumption; try apply W3; try apply L2.
  - rewrite (other_status_run LocalTZA u id now s plan d Hadmin Es).
    destruct plan as [[|k]|]; cbn [snd]; repeat split; try assumption;
      apply payments_core_status.
Qed.

(** X4. Without a session the status route answers 401, and for a user
    whose [isAdmin] is false or null it answers 403; in both cases no
    statement runs and the store stays as it is. *)
Theorem setStatus_needs_admin
    (LocalTZA : Z -> bool -> Z) (user : option User.t) (id now : Z)
    (s : string) (plan : option nat) (d : DB) :
  let out := serve (putAdminPremiumPayment LocalTZA user id s now) plan d in
  (user = None -> status (fst out) = 401 /\ snd out = d)
  /\ (forall u, user = Some u -> User.isAdmin u <> Some true ->
        status (fst out) = 403 /\ snd out = d).
Proof.
  intros out. subst out. split.
  - intros ->. now rewrite (not_admin_run LocalTZA None id now s plan d I).
  - intros u -> Hno.
    assert (Hadmin : truthy (User.isAdmin u) = false).
    { destruct (User.isAdmin u) as [[|]|]; [now elim Hno | reflexivity
                                            | reflexivity]. }
    now rewrite (not_admin_run LocalTZA (Some u) id now s plan d Hadmin).
Qed.

Lemma setStatus_needs_admin_witness :
  let d := snd (Sample.submit 1000 Sample.store) in
  let out :=
    serve (putAdminPremiumPayment Time.utcZone (Some Sample.seller) 1
             "approved" 2000) None d in
  status (fst out) = 403 /\ snd out = d.
Proof.
  destruct (setStatus_needs_admin Time.utcZone (Some Sample.seller) 1 2000
              "approved" None (snd (Sample.submit 1000 Sample.store)))
    as [_ H].
  apply (H Sample.seller eq_refl). discriminate.
Defined.

(** X5. The status is not validated: an admin's request with any string
    other than approved, for a payment that exists, is answered 200 and
    stores that string as the status.  The expiry of the payment and the
    listings stay, so a payment set back from approved keeps its expiry and
    its listing stays premium. *)
Theorem setStatus_stores_any_status
    (LocalTZA : Z -> bool -> Z) (u : User.t) (id now : Z) (s : string)
    (d : DB) (p : PremiumPayment.t) :
  truthy (User.isAdmin u) = true ->
  s <> "approved" ->
  paymentOf id d = Some p ->
  let out := serve (putAdminPremiumPayment LocalTZA (Some u) id s now) None d in
  fst out = mkResponse 200 (JPayment (Some (PremiumPayment.setStatus s p)))
  /\ paymentOf id (snd out) = Some (PremiumPayment.setStatus s p)
  /\ PremiumPayment.status (PremiumPayment.setStatus s p) = Some s
  /\ PremiumPayment.expiresAt (PremiumPayment.setStatus s p)
     = PremiumPayment.expiresAt p
  /\ listings (snd out) = listings d.
Proof.
  intros Hadmin Hs Hp out. subst out.
  assert (Es : String.eqb s "approved" = false)
    by (now apply String.eqb_neq).
  rewrite (other_status_run LocalTZA u id now s None d Hadmin Es).
  rewrite Hp. cbn [fst snd option_map].
  repeat split.
  unfold paymentOf in *. cbn [premiumPayments withPayments].
  rewrite find_updateWhere by (intros r; reflexivity). now rewrite Hp.
Qed.

Lemma setStatus_stores_any_status_witness :
  let d := snd (Sample.setStatus None 1 "approved" 2000
                  (snd (Sample.submit 1000 Sample.store))) in
  let out := Sample.setStatus None 1 "" 3000 d in
  (exists p, paymentOf 1 (snd out) = Some p
             /\ PremiumPayment.status p = Some ""
             /\ PremiumPayment.expiresAt p = Some (2000 + 30 * 86400000))
  /\ listings (snd out) = listings d
  /\ map Listing.isPremium (listings d) = [Some true].
Proof.
  pose proof (setStatus_stores_any_status Time.utcZone Sample.admin 1 3000 ""
                (snd (Sample.setStatus None 1 "approved" 2000
                        (snd (Sample.submit 1000 Sample.store))))
                _ eq_refl ltac:(discriminate) eq_refl) as H.
  cbv zeta in H. destruct H as [_ [H2 [H3 [H4 H5]]]].
  cbv zeta. split; [|split; [exact H5 | reflexivity]].
  eexists. split; [exact H2|]. split; [exact H3 | exact H4].
Defined.
(** X6. Approving a payment again overwrites the first approval: when
    the expiry of the second approval is a time a [Date] can hold, the
    store after two approvals without fault is the one a single approval
    at the second time leaves, so the expiry of payment and listing counts
    from the last approval. *)
Theorem reapproval_overwrites
    (LocalTZA : Z -> bool -> Z) (u1 u2 : User.t) (id t1 t2 : Z) (d : DB)
    (p : PremiumPayment.t) (tier : PremiumTier.t) :
  truthy (User.isAdmin u1) = true ->
  truthy (User.isAdmin u2) = true ->
  paymentOf id d = Some p ->
  tierOf p d = Some tier ->
  Time.representable
    (Time.plusCalendarDays LocalTZA t2 (PremiumTier.durationDays tier)) ->
  snd (serve (putAdminPremiumPayment LocalTZA (Some u2) id "approved" t2) None
         (snd (serve (putAdminPremiumPayment LocalTZA (Some u1) id "approved"
                        t1) None d)))
  = snd (serve (putAdminPremiumPayment LocalTZA (Some u2) id "approved" t2)
           None d).
Proof.
  intros A1 A2 Hp Ht He2.
  pose proof (approve_run LocalTZA u2 id t2 None d p tier A2 Hp Ht He2) as R2.
  cbv zeta in R2. rewrite R2. cbn [snd].
  set (e1 := Time.plusCalendarDays LocalTZA t1 (PremiumTier.durationDays tier)).
  set (e2 := Time.plusCalendarDays LocalTZA t2 (PremiumTier.durationDays tier))
    in *.
  destruct (Z_le_gt_dec (Z.abs e1) Time.maxTime) as [He1|He1].
  - pose proof (approve_run LocalTZA u1 id t1 None d p tier A1 Hp Ht He1)
      as R1.
    cbv zeta in R1. rewrite R1. cbn [snd]. fold e1.
    set (d1 := approveWrite3 id e1 (approveWrite2 p e1 (approveWrite1 id d))).
    pose proof (paymentOf_approveWrite3 id e1 d p Hp) as Hp1. fold d1 in Hp1.
    assert (Ht1 : tierOf (approved e1 p) d1 = Some tier) by exact Ht.
    pose proof (approve_run LocalTZA u2 id t2 None d1 (approved e1 p) tier
                  A2 Hp1 Ht1 He2) as R3.
    cbv zeta in R3. rewrite R3. cbn [snd]. fold e2.
    unfold d1, approveWrite3, approveWrite2, approveWrite1, withPayments,
      withListings.
    cbn [listings premiumTiers premiumPayments listingViews messages
           premiumPayments_seq listingViews_seq PremiumPayment.listingId
           PremiumPayment.tierId approved PremiumPayment.setExpiresAt
           PremiumPayment.setStatus].
    f_equal.
    + rewrite updateWhere_twice by (intros r; reflexivity). reflexivity.
    + rewrite !updateWhere_twice by (intros r; reflexivity). reflexivity.
  - rewrite (approve_invalid_run LocalTZA u1 id t1 None d p tier A1 Hp Ht)
      by (fold e1; unfold Time.representable; lia).
    cbn [snd].
    set (d1 := approveWrite1 id d).
    pose proof (paymentOf_approveWrite1 id d p Hp) as Hp1. fold d1 in Hp1.
    assert (Ht1 : tierOf (PremiumPayment.setStatus "approved" p) d1
                  = Some tier) by exact Ht.
    pose proof (approve_run LocalTZA u2 id t2 None d1
                  (PremiumPayment.setStatus "approved" p) tier
                  A2 Hp1 Ht1 He2) as R3.
    cbv zeta in R3. rewrite R3. cbn [snd]. fold e2.
    unfold d1, approveWrite3, approveWrite2, approveWrite1, withPayments,
      withListings.
    cbn [listings premiumTiers premiumPayments listingViews messages
           premiumPayments_seq listingViews_seq PremiumPayment.listingId
           PremiumPayment.tierId PremiumPayment.setStatus].
    f_equal.
    rewrite !updateWhere_twice by (intros r; reflexivity). reflexivity.
Qed.

Lemma reapproval_overwrites_witness :
  let d := snd (Sample.submit 1000 Sample.store) in
  Time.representable (Time.plusCalendarDays Time.utcZone 9000 30)
  /\ snd (Sample.setStatus None 1 "approved" 9000
            (snd (Sample.setStatus None 1 "approved" 2000 d)))
     = snd (Sample.setStatus None 1 "approved" 9000 d).
Proof.
  assert (He : Time.representable (Time.plusCalendarDays Time.utcZone 9000 30))
    by (apply Z.leb_le; reflexivity).
  split; [exact He|].
  exact (reapproval_overwrites Time.utcZone Sample.admin Sample.admin 1 2000
           9000 (snd (Sample.submit 1000 Sample.store))
           (PremiumPayment.mk 1 7 2 1 "https://cdn/proof.png"
                              (Some "pending") 500 (Some 1000) None)
           Sample.tier30 eq_refl eq_refl eq_refl eq_refl He).
Defined.

(** X7. On a server whose zone has a fixed offset from UTC the expiry of
    an approval is the time of the approval plus [durationDays] times 24
    hours when that is at most 8.64e15 ms away from the epoch, and the
    Invalid Date when it is not.  Nothing checks the sign of
    [durationDays]: an expiry that is a date lies after the approval
    exactly when [durationDays] is positive. *)
Theorem expiry_in_fixed_zone (offset now durationDays : Z) :
  let t := now + durationDays * Time.msPerDay in
  let expiresAt := expiryDate (fun _ _ => offset) now durationDays in
  (Z.abs t <= 8640000000000000 -> expiresAt = Some t)
  /\ (8640000000000000 < Z.abs t -> expiresAt = None)
  /\ (forall e, expiresAt = Some e -> (now < e <-> 0 < durationDays)).
Proof.
  intros t expiresAt.
  assert (E : expiresAt = Time.TimeClip t).
  { unfold expiresAt, expiryDate.
    rewrite TimeFacts.setDate_getDate.
    now rewrite TimeFacts.plusCalendarDays_fixed. }
  rewrite E. split; [|split].
  - intros H. now apply TimeFacts.TimeClip_representable.
  - intros H. apply TimeFacts.TimeClip_beyond.
    unfold Time.representable, Time.maxTime. lia.
  - intros e He. apply TimeFacts.TimeClip_value in He. destruct He as [-> _].
    unfold t, Time.msPerDay. lia.
Qed.

Lemma expiry_in_fixed_zone_witness :
  expiryDate Time.utcZone 2000 30 = Some (2000 + 30 * 86400000)
  /\ expiryDate Time.utcZone 2000 2147483647 = None
  /\ expiryDate Time.utcZone 2000 (-1) = Some (2000 - 86400000).
Proof.
  split; [|split].
  - apply (proj1 (expiry_in_fixed_zone 0 2000 30)). vm_compute. discriminate.
  - apply (proj1 (proj2 (expiry_in_fixed_zone 0 2000 2147483647))).
    reflexivity.
  - apply (proj1 (expiry_in_fixed_zone 0 2000 (-1))). vm_compute. discriminate.
Defined.
(** ** View requests as a whole *)

(** X8. No view request records anything: whoever sends it, for whatever
    listing and address, and whatever the fault plan, it answers 500 with
    the [ReferenceError] of [geoip] and leaves the store as it was; so does
    every sequence of view requests. *)
Theorem view_request_never_records (r : ViewRequest) (reqs : list ViewRequest)
    (d : DB) :
  serveView r d = (trackFailed ReferenceError, d)
  /\ serveViews reqs d = d.
Proof.
  split; [unfold serveView; apply view_run|].
  induction reqs as [|q reqs IH]; cbn [serveViews]; [reflexivity|].
  unfold serveView. rewrite view_run. exact IH.
Qed.

(** ** Grouping, counting and ordering *)

Section Grouping.

Context {K : Type}.
Variable eqb : K -> K -> bool.
Hypothesis eqb_spec : forall a b, eqb a b = true <-> a = b.

Lemma bump_sum (k : K) (acc : list (K * Z)) :
  Sql.sum (map snd (Sql.bump eqb k acc)) = Sql.sum (map snd acc) + 1.
Proof.
  unfold Sql.sum.
  induction acc as [|[k' c] acc IH]; cbn; [reflexivity|].
  destruct (eqb k k'); cbn; [lia | rewrite IH; lia].
Qed.

Lemma bump_positive (k : K) (acc : list (K * Z)) :
  Forall (fun kc => 1 <= snd kc) acc ->
  Forall (fun kc => 1 <= snd kc) (Sql.bump eqb k acc).
Proof.
  induction 1 as [|[k' c] acc Hc Hacc IH]; cbn.
  - constructor; [cbn; lia | constructor].
  - destruct (eqb k k'); constructor; cbn in *; try lia; assumption.
Qed.

Lemma bump_keys (k : K) (acc : list (K * Z)) (x : K) :
  In x (map fst (Sql.bump eqb k acc)) <-> x = k \/ In x (map fst acc).
Proof.
  induction acc as [|[k' c] acc IH]; cbn; [intuition congruence|].
  destruct (eqb k k') eqn:E; cbn.
  - apply eqb_spec in E. subst k'. intuition congruence.
  - rewrite IH. intuition congruence.
Qed.

Lemma bump_NoDup (k : K) (acc : list (K * Z)) :
  NoDup (map fst acc) -> NoDup (map fst (Sql.bump eqb k acc)).
Proof.
  induction acc as [|[k' c] acc IH]; cbn; intros Hnd.
  - constructor; [intros [] | constructor].
  - inversion Hnd as [|x xs Hnot Hnd']; subst.
    destruct (eqb k k') eqn:E; cbn; [constructor; assumption|].
    constructor; [|now apply IH].
    rewrite bump_keys. intros [->|Hin]; [|contradiction].
    assert (T : eqb k k = true) by now apply eqb_spec.
    congruence.
Qed.

Lemma fold_bump (keys : list K) (acc : list (K * Z)) :
  let out := fold_left (fun a k => Sql.bump eqb k a) keys acc in
  Sql.sum (map snd out) = Sql.sum (map snd acc) + Z.of_nat (List.length keys)
  /\ (Forall (fun kc => 1 <= snd kc) acc -> Forall (fun kc => 1 <= snd kc) out)
  /\ (NoDup (map fst acc) -> NoDup (map fst out))
  /\ (forall x, In x (map fst out) <-> In x keys \/ In x (map fst acc)).
Proof.
  revert acc. induction keys as [|k keys IH]; intros acc;
    cbn [fold_left List.length]; cbv zeta.
  - repeat split; try tauto; try (cbn; lia).
    intros [[]|H]; exact H.
  - destruct (IH (Sql.bump eqb k acc)) as [H1 [H2 [H3 H4]]].
    cbv zeta in *. repeat split.
    + rewrite H1, bump_sum, Nat2Z.inj_succ. lia.
    + intros H. apply H2. now apply bump_positive.
    + intros H. apply H3. now apply bump_NoDup.
    + rewrite H4, bump_keys. cbn [In]. intuition congruence.
    + rewrite H4, bump_keys. cbn [In]. intuition congruence.
Qed.

Lemma eqb_sym (a b : K) : eqb a b = eqb b a.
Proof.
  destruct (eqb a b) eqn:E1, (eqb b a) eqn:E2; try reflexivity.
  - apply eqb_spec in E1. subst b.
    assert (T : eqb a a = true) by now apply eqb_spec. congruence.
  - apply eqb_spec in E2. subst b.
    assert (T : eqb a a = true) by now apply eqb_spec. congruence.
Qed.

Lemma bump_tally (k x : K) (acc : list (K * Z)) :
  tally eqb x (Sql.bump eqb k acc)
  = tally eqb x acc + (if eqb x k then 1 else 0).
Proof.
  unfold tally, Sql.sum.
  induction acc as [|[k' c] acc IH]; cbn.
  - destruct (eqb x k); reflexivity.
  - destruct (eqb k k') eqn:E; cbn.
    + apply eqb_spec in E. subst k'. destruct (eqb x k); cbn; lia.
    + destruct (eqb x k'); cbn; rewrite IH; lia.
Qed.

Lemma fold_tally (x : K) (keys : list K) (acc : list (K * Z)) :
  tally eqb x (fold_left (fun a k => Sql.bump eqb k a) keys acc)
  = tally eqb x acc + Z.of_nat (List.length (filter (eqb x) keys)).
Proof.
  revert acc. induction keys as [|k keys IH]; intros acc; cbn [fold_left filter].
  - cbn. lia.
  - rewrite IH, bump_tally.
    destruct (eqb x k); cbn [List.length]; lia.
Qed.

(** A key that has one row has its tally in that row. *)
Lemma tally_row (x : K) (c : Z) (rows : list (K * Z)) :
  NoDup (map fst rows) -> In (x, c) rows -> tally eqb x rows = c.
Proof.
  unfold tally, Sql.sum.
  induction rows as [|[k' c'] rows IH]; cbn; intros Hnd Hin; [contradiction|].
  apply NoDup_cons_iff in Hnd. destruct Hnd as [Hnot Hnd].
  destruct Hin as [E|Hin].
  - injection E as -> ->.
    assert (T : eqb x x = true) by now apply eqb_spec.
    rewrite T. cbn.
    assert (Z : filter (fun kc => eqb x (fst kc)) rows = []).
    { clear IH Hnd. induction rows as [|[k d] rows IH]; cbn; [reflexivity|].
      destruct (eqb x k) eqn:E.
      - apply eqb_spec in E. subst k. elim Hnot. now left.
      - apply IH. intros H. apply Hnot. now right. }
    rewrite Z. cbn. lia.
  - destruct (eqb x k') eqn:E.
    + apply eqb_spec in E. subst k'. elim Hnot.
      apply in_map_iff. now exists (x, c).
    + now apply IH.
Qed.

(** [GROUP BY] with [count]: one row per key that occurs, each with a
    count of at least one, the counts adding up to the number of rows. *)
Lemma groupCount_spec (keys : list K) :
  Sql.sum (map snd (Sql.groupCount eqb keys)) = Z.of_nat (List.length keys)
  /\ Forall (fun kc => 1 <= snd kc) (Sql.groupCount eqb keys)
  /\ NoDup (map fst (Sql.groupCount eqb keys))
  /\ (forall x, In x (map fst (Sql.groupCount eqb keys)) <-> In x keys).
Proof.
  unfold Sql.groupCount.
  destruct (fold_bump keys []) as [H1 [H2 [H3 H4]]]. cbv zeta in *.
  repeat split.
  - rewrite H1. reflexivity.
  - apply H2. constructor.
  - apply H3. constructor.
  - intros H. apply H4 in H. destruct H as [H|[]]. exact H.
  - intros H. apply H4. now left.
Qed.

(** The count of a row is the number of times its key occurs. *)
Lemma groupCount_count (keys : list K) (x : K) (c : Z) :
  In (x, c) (Sql.groupCount eqb keys) ->
  c = Z.of_nat (List.length (filter (eqb x) keys)).
Proof.
  intros Hin.
  destruct (groupCount_spec keys) as [_ [_ [Hnd _]]].
  rewrite <- (tally_row x c _ Hnd Hin).
  unfold Sql.groupCount. rewrite fold_tally. reflexivity.
Qed.

End Grouping.

Lemma insertByKey_perm (x : Z * Z) (l : list (Z * Z)) :
  Permutation (Sql.insertByKey x l) (x :: l).
Proof.
  induction l as [|y l IH]; cbn; [reflexivity|].
  destruct (fst x <=? fst y); [reflexivity|].
  rewrite IH. apply perm_swap.
Qed.

Lemma orderByKey_perm (l : list (Z * Z)) : Permutation (Sql.orderByKey l) l.
Proof.
  induction l as [|x l IH]; cbn; [reflexivity|].
  rewrite insertByKey_perm. now constructor.
Qed.

Lemma insertByKey_sorted (x : Z * Z) (l : list (Z * Z)) :
  StronglySorted (fun a b => fst a <= fst b) l ->
  StronglySorted (fun a b => fst a <= fst b) (Sql.insertByKey x l).
Proof.
  induction 1 as [|y l Hl IH Hy]; cbn.
  - constructor; constructor.
  - destruct (fst x <=? fst y) eqn:E.
    + apply Z.leb_le in E. constructor; [now constructor|].
      constructor; [exact E|].
      revert Hy. apply Forall_impl. intros a Ha. lia.
    + apply Z.leb_gt in E. constructor; [exact IH|].
      apply (@Permutation_Forall _ _ (x :: l)).
      * symmetry. apply insertByKey_perm.
      * constructor; [lia | exact Hy].
Qed.

Lemma orderByKey_sorted (l : list (Z * Z)) :
  StronglySorted (fun a b => fst a <= fst b) (Sql.orderByKey l).
Proof.
  induction l as [|x l IH]; cbn; [constructor | now apply insertByKey_sorted].
Qed.

Lemma sorted_distinct_strict (l : list Z) :
  StronglySorted Z.le l -> NoDup l -> StronglySorted Z.lt l.
Proof.
  induction 1 as [|x l Hl IH Hx]; intros Hnd; constructor.
  - apply IH. now inversion Hnd.
  - inversion Hnd as [|y ys Hnot _]; subst.
    rewrite Forall_forall in *. intros y Hy.
    specialize (Hx y Hy).
    apply Z.le_neq. split; [exact Hx|]. intros ->. contradiction.
Qed.

Lemma sorted_map_fst (l : list (Z * Z)) :
  StronglySorted (fun a b => fst a <= fst b) l ->
  StronglySorted Z.le (map fst l).
Proof.
  induction 1 as [|x l Hl IH Hx]; cbn; constructor; [exact IH|].
  apply Forall_map. exact Hx.
Qed.

Lemma sum_perm (l l' : list Z) :
  Permutation l l' -> Sql.sum l = Sql.sum l'.
Proof.
  unfold Sql.sum. induction 1; cbn in *; lia.
Qed.

(** [GROUP BY key ORDER BY key] on integer keys: the keys that occur, in
    strictly ascending order, with counts of at least one that add up to
    the number of rows. *)
Lemma grouped_ordered (keys : list Z) :
  let out := Sql.orderByKey (Sql.groupCount Z.eqb keys) in
  StronglySorted Z.lt (map fst out)
  /\ Forall (fun kc => 1 <= snd kc) out
  /\ Sql.sum (map snd out) = Z.of_nat (List.length keys)
  /\ (forall x, In x (map fst out) <-> In x keys).
Proof.
  intros out.
  destruct (groupCount_spec Z.eqb Z.eqb_eq keys) as [H1 [H2 [H3 H4]]].
  pose proof (orderByKey_perm (Sql.groupCount Z.eqb keys)) as P.
  fold out in P.
  repeat split.
  - apply sorted_distinct_strict.
    + apply sorted_map_fst, orderByKey_sorted.
    + apply (Permutation_NoDup (l := map fst (Sql.groupCount Z.eqb keys)));
        [symmetry; now apply Permutation_map | exact H3].
  - apply (@Permutation_Forall _ _ (Sql.groupCount Z.eqb keys));
      [now symmetry | exact H2].
  - rewrite (sum_perm _ _ (Permutation_map snd P)). exact H1.
  - intros H. apply H4.
    apply (Permutation_in (l := map fst out)); [now apply Permutation_map | exact H].
  - intros H. apply H4 in H.
    apply (Permutation_in (l := map fst (Sql.groupCount Z.eqb keys)));
      [symmetry; now apply Permutation_map | exact H].
Qed.
(** ** The numbers of the report *)

(** A report in the body is the report of the listing. *)
Lemma analytics_report (user : option User.t) (l now : Z) (plan : option nat)
    (d : DB) (r : AnalyticsReport) :
  body (fst (serve (getListingAnalytics user l now) plan d)) = JReport r ->
  r = reportOf l now d.
Proof.
  destruct user as [u|]; [|discriminate].
  rewrite analytics_run.
  destruct plan as [[|[|[|[|[|[|k]]]]]]|];
    try discriminate;
    destruct (notOwner (listingOf l d) u); try discriminate;
    cbn [fst body]; intros E; injection E as <-; reflexivity.
Qed.

Lemma countDistinct_le_length (xs : list string) :
  0 <= Sql.countDistinct xs <= Z.of_nat (List.length xs).
Proof.
  unfold Sql.countDistinct. split; [lia|].
  apply Nat2Z.inj_le.
  apply NoDup_incl_length; [apply NoDup_nodup|].
  intros x Hx. now apply nodup_In in Hx.
Qed.

Lemma countDistinct_incl (xs ys : list string) :
  incl xs ys -> Sql.countDistinct xs <= Sql.countDistinct ys.
Proof.
  intros H. unfold Sql.countDistinct. apply Nat2Z.inj_le.
  apply NoDup_incl_length; [apply NoDup_nodup|].
  intros x Hx. apply nodup_In. apply H. now apply nodup_In in Hx.
Qed.

(** X11. In every report, the returning visitors are at most the unique
    visitors and the unique visitors at most the views; none of the three
    is negative. *)
Theorem report_counts_ordered (user : option User.t) (l now : Z)
    (plan : option nat) (d : DB) (r : AnalyticsReport) :
  body (fst (serve (getListingAnalytics user l now) plan d)) = JReport r ->
  0 <= returningVisitors (views r)
  /\ returningVisitors (views r) <= unique (views r)
  /\ unique (views r) <= total (views r)
  /\ total (views r) = Z.of_nat (List.length (viewsOf l d)).
Proof.
  intros H. apply analytics_report in H. subst r.
  cbn [views reportOf viewTotals returningVisitors unique total].
  split; [apply countDistinct_le_length|].
  split.
  - apply countDistinct_incl. intros x Hx.
    apply in_map_iff in Hx. destruct Hx as [v [<- Hv]].
    apply in_map. apply filter_In in Hv. apply Hv.
  - split; [|reflexivity].
    rewrite <- (length_map ListingView.ipAddress (viewsOf l d)).
    apply countDistinct_le_length.
Qed.

Lemma report_counts_ordered_witness :
  exists r,
    body (fst (Sample.analytics Sample.seller 7 20000 Sample.visited))
    = JReport r
    /\ returningVisitors (views r) <= unique (views r)
    /\ unique (views r) <= total (views r).
Proof.
  eexists. split; [reflexivity|].
  destruct (report_counts_ordered (Some Sample.seller) 7 20000 None
              Sample.visited _ eq_refl) as [_ [H2 [H3 _]]].
  split; [exact H2 | exact H3].
Defined.

Lemma length_createdSince (l since : Z) (d : DB) :
  List.length (createdSince l since d)
  = List.length
      (filter (fun v => Sql.tsAfter (ListingView.createdAt v) since)
              (viewsOf l d)).
Proof.
  unfold createdSince.
  induction (viewsOf l d) as [|v rows IH]; cbn; [reflexivity|].
  destruct (ListingView.createdAt v) as [c|] eqn:E; cbn; [|exact IH].
  destruct (since <? c); cbn; [rewrite E; cbn; now rewrite IH | exact IH].
Qed.

Lemma strictly_sorted_NoDup (l : list Z) : StronglySorted Z.lt l -> NoDup l.
Proof.
  induction 1 as [|x l Hl IH Hx]; constructor; [|exact IH].
  intros Hin. rewrite Forall_forall in Hx. specialize (Hx x Hin). lia.
Qed.

Lemma hours_fit_a_day (hs : list Z) :
  NoDup hs -> Forall (fun h => 0 <= h < 24) hs -> (List.length hs <= 24)%nat.
Proof.
  intros Hnd Hr.
  replace 24%nat with (List.length (map Z.of_nat (seq 0 24)))
    by (rewrite length_map, length_seq; reflexivity).
  apply NoDup_incl_length; [exact Hnd|].
  intros h Hh. rewrite Forall_forall in Hr. specialize (Hr h Hh).
  apply in_map_iff. exists (Z.to_nat h). split; [lia|].
  apply in_seq. lia.
Qed.

Example hour_labels :
  map hourLabel [0; 9; 10; 23] = ["00:00"; "09:00"; "10:00"; "23:00"].
Proof. reflexivity. Qed.

Lemma hourLabel_injective (a b : Z) :
  0 <= a < 24 -> 0 <= b < 24 -> hourLabel a = hourLabel b -> a = b.
Proof.
  intros Ha Hb.
  rewrite <- (Z2Nat.id a), <- (Z2Nat.id b) by lia.
  assert (Na : (Z.to_nat a < 24)%nat) by lia.
  assert (Nb : (Z.to_nat b < 24)%nat) by lia.
  revert Na Nb. generalize (Z.to_nat a) (Z.to_nat b). clear.
  intros n m Hn Hm.
  do 24 (destruct n as [|n]; [
    do 24 (destruct m as [|m];
           [first [reflexivity | intros H; discriminate H]|]); lia |]).
  lia.
Qed.

(** X12. The hourly breakdown of a report has one row for each hour of the
    day in which a view of the listing was created during the last 24
    hours, and no other row: the row carries the hour as two digits
    followed by [":00"] and the number of those views in that hour.  The
    hours ascend and no label comes twice, so there are at most 24 rows;
    every count is at least 1 (hours without a view are left out) and the
    counts add up to the number of those views. *)
Theorem hourly_breakdown (user : option User.t) (l now : Z)
    (plan : option nat) (d : DB) (r : AnalyticsReport) :
  body (fst (serve (getListingAnalytics user l now) plan d)) = JReport r ->
  let created := createdSince l (now - Time.interval_24_hours) d in
  exists hs,
    hourlyViews r = map (fun h => (hourLabel h, viewsInHour h created)) hs
    /\ (forall h, In h hs <-> exists t, In t created /\ hourOfDay t = h)
    /\ map fst (hourlyViews r) = map hourLabel hs
    /\ StronglySorted Z.lt hs
    /\ Forall (fun h => 0 <= h < 24) hs
    /\ NoDup (map fst (hourlyViews r))
    /\ (List.length (hourlyViews r) <= 24)%nat
    /\ Forall (fun hc => 1 <= snd hc) (hourlyViews r)
    /\ Sql.sum (map snd (hourlyViews r))
       = Z.of_nat
           (List.length
              (filter (fun v => Sql.tsAfter (ListingView.createdAt v)
                                  (now - Time.interval_24_hours))
                      (viewsOf l d))).
Proof.
  intros H created. apply analytics_report in H. subst r.
  cbn [hourlyViews reportOf]. unfold hourlyViewsOf. fold created.
  set (hours := map hourOfDay created).
  destruct (grouped_ordered hours) as [Hs [Hp [Hsum Hin]]].
  cbv zeta in Hs, Hp, Hsum, Hin.
  assert (Hcount : forall h c,
             In (h, c) (Sql.orderByKey (Sql.groupCount Z.eqb hours)) ->
             c = viewsInHour h created).
  { intros h c Hhc.
    apply (Permutation_in _ (orderByKey_perm _)) in Hhc.
    rewrite (groupCount_count Z.eqb Z.eqb_eq hours h c Hhc).
    unfold viewsInHour, hours. f_equal.
    clear. induction created as [|t ts IH]; cbn; [reflexivity|].
    rewrite (Z.eqb_sym h). destruct (hourOfDay t =? h); cbn; now rewrite IH. }
  set (rows := Sql.orderByKey (Sql.groupCount Z.eqb hours)) in *.
  assert (Hrange : Forall (fun h => 0 <= h < 24) (map fst rows)).
  { apply Forall_forall. intros h Hh. apply Hin in Hh.
    unfold hours in Hh. apply in_map_iff in Hh. destruct Hh as [t [<- _]].
    unfold hourOfDay. apply Z.mod_pos_bound. lia. }
  assert (Hlabels : map fst (map (fun hc => (hourLabel (fst hc), snd hc)) rows)
                    = map hourLabel (map fst rows))
    by (rewrite !map_map; reflexivity).
  exists (map fst rows). repeat split.
  - rewrite map_map. apply map_ext_in. intros [h c] Hhc. cbn [fst snd].
    now rewrite (Hcount h c Hhc).
  - intros Hh. apply Hin in Hh. unfold hours in Hh.
    apply in_map_iff in Hh. destruct Hh as [t [E Ht]]. now exists t.
  - intros [t [Ht E]]. apply Hin. unfold hours. apply in_map_iff. now exists t.
  - exact Hlabels.
  - exact Hs.
  - exact Hrange.
  - rewrite Hlabels.
    apply NoDup_map_NoDup_ForallPairs; [|now apply strictly_sorted_NoDup].
    intros a b Ha Hb. rewrite Forall_forall in Hrange.
    apply hourLabel_injective; now apply Hrange.
  - rewrite length_map, <- (length_map fst rows).
    apply hours_fit_a_day; [now apply strictly_sorted_NoDup | exact Hrange].
  - apply Forall_map. exact Hp.
  - rewrite map_map. cbn [snd].
    rewrite <- (map_map snd (fun c => c)), map_id.
    rewrite Hsum. unfold hours, created.
    now rewrite length_map, length_createdSince.
Qed.

Lemma hourly_breakdown_witness :
  exists r,
    body (fst (Sample.analytics Sample.seller 7 20000 Sample.visited))
    = JReport r
    /\ hourlyViews r = [("00:00", 3)]
    /\ Sql.sum (map snd (hourlyViews r)) = 3.
Proof.
  eexists. split; [reflexivity|]. split; [reflexivity|].
  destruct (hourly_breakdown (Some Sample.seller) 7 20000 None
              Sample.visited _ eq_refl) as [hs [_ [_ [_ [_ [_ [_ [_ [_ H]]]]]]]]].
  rewrite H. reflexivity.
Defined.

(** X13. The daily breakdown of a report has one row per day on which a
    view of the listing was created during the last 7 days, in ascending
    order of the day and no day twice; every count is at least 1 and the
    counts add up to the number of those views. *)
Theorem daily_breakdown (user : option User.t) (l now : Z)
    (plan : option nat) (d : DB) (r : AnalyticsReport) :
  body (fst (serve (getListingAnalytics user l now) plan d)) = JReport r ->
  StronglySorted Z.lt (map fst (dailyViews r))
  /\ Forall (fun dc => 1 <= snd dc) (dailyViews r)
  /\ Sql.sum (map snd (dailyViews r))
     = Z.of_nat
         (List.length
            (filter (fun v => Sql.tsAfter (ListingView.createdAt v)
                                (now - Time.interval_7_days))
                    (viewsOf l d)))
  /\ (forall day,
        In day (map fst (dailyViews r))
        <-> exists t, In t (createdSince l (now - Time.interval_7_days) d)
                      /\ Time.Day t = day).
Proof.
  intros H. apply analytics_report in H. subst r.
  cbn [dailyViews reportOf]. unfold dailyViewsOf.
  destruct (grouped_ordered
              (map Time.Day (createdSince l (now - Time.interval_7_days) d)))
    as [Hs [Hp [Hsum Hin]]].
  cbv zeta in Hs, Hp, Hsum, Hin.
  repeat split; try assumption.
  - now rewrite Hsum, length_map, length_createdSince.
  - intros Hd. apply Hin in Hd. apply in_map_iff in Hd.
    destruct Hd as [t [E Ht]]. now exists t.
  - intros [t [Ht E]]. apply Hin. apply in_map_iff. now exists t.
Qed.

Lemma daily_breakdown_witness :
  exists r,
    body (fst (Sample.analytics Sample.seller 7 20000 Sample.visited))
    = JReport r
    /\ StronglySorted Z.lt (map fst (dailyViews r))
    /\ Sql.sum (map snd (dailyViews r)) = 3.
Proof.
  eexists. split; [reflexivity|].
  destruct (daily_breakdown (Some Sample.seller) 7 20000 None
              Sample.visited _ eq_refl) as [H1 [_ [H3 _]]].
  split; [exact H1 | rewrite H3; reflexivity].
Defined.

Lemma countries_of (rows : list ListingView.t) (c : string) :
  In c (Sql.somes (map countryOf rows))
  <-> exists v, In v rows /\ countryOf v = Some c.
Proof.
  induction rows as [|v rows IH]; cbn.
  - split; [intros [] | intros [v [[] _]]].
  - destruct (countryOf v) as [c'|] eqn:E; cbn; rewrite IH; split.
    + intros [<-|[v' [Hv' E']]]; [exists v | exists v']; auto.
    + intros [v' [[<-|Hv'] E']]; [left; congruence | right; now exists v'].
    + intros [v' [Hv' E']]. exists v'. auto.
    + intros [v' [[<-|Hv'] E']]; [congruence | now exists v'].
Qed.

Lemma length_countries (rows : list ListingView.t) :
  List.length (Sql.somes (map countryOf rows))
  = List.length (filter (fun v => isSome (countryOf v)) rows).
Proof.
  induction rows as [|v rows IH]; cbn; [reflexivity|].
  destruct (countryOf v); cbn; now rewrite IH.
Qed.

(** X14. The geographic distribution of a report has one row per country
    that a view of the listing resolved to, no country twice; views
    without a country are left out; every count is at least 1 and the
    counts add up to the number of views with a country. *)
Theorem geo_distribution (user : option User.t) (l now : Z)
    (plan : option nat) (d : DB) (r : AnalyticsReport) :
  body (fst (serve (getListingAnalytics user l now) plan d)) = JReport r ->
  NoDup (map fst (geoDistribution r))
  /\ Forall (fun cc => 1 <= snd cc) (geoDistribution r)
  /\ Sql.sum (map snd (geoDistribution r))
     = Z.of_nat
         (List.length
            (filter (fun v => isSome (countryOf v)) (viewsOf l d)))
  /\ (forall country,
        In country (map fst (geoDistribution r))
        <-> exists v, In v (viewsOf l d) /\ countryOf v = Some country).
Proof.
  intros H. apply analytics_report in H. subst r.
  cbn [geoDistribution reportOf]. unfold geoDistributionOf.
  destruct (groupCount_spec String.eqb String.eqb_eq
              (Sql.somes (map countryOf (viewsOf l d))))
    as [Hsum [Hp [Hnd Hin]]].
  pose proof (countries_of (viewsOf l d)) as Hsomes.
  pose proof (length_countries (viewsOf l d)) as Hlen.
  repeat split; try assumption.
  - now rewrite Hsum, Hlen.
  - intros Hc. apply Hsomes. now apply Hin.
  - intros Hc. apply Hin. now apply Hsomes.
Qed.

Lemma geo_distribution_witness :
  exists r,
    body (fst (Sample.analytics Sample.seller 7 20000 Sample.visited))
    = JReport r
    /\ geoDistribution r = []
    /\ NoDup (map fst (geoDistribution r)).
Proof.
  eexists. split; [reflexivity|]. split; [reflexivity|].
  exact (proj1 (geo_distribution (Some Sample.seller) 7 20000 None
                  Sample.visited _ eq_refl)).
Defined.
(** ** Tiers by price, one listing *)

Section Ordering.

Context {A : Type}.
Variable key : A -> Z.

Lemma insertBy_perm (x : A) (l : list A) :
  Permutation (insertBy key x l) (x :: l).
Proof.
  induction l as [|y l IH]; cbn; [reflexivity|].
  destruct (key x <=? key y); [reflexivity|].
  rewrite IH. apply perm_swap.
Qed.

Lemma orderBy_perm (l : list A) : Permutation (orderBy key l) l.
Proof.
  induction l as [|x l IH]; cbn; [reflexivity|].
  rewrite insertBy_perm. now constructor.
Qed.

Lemma insertBy_sorted (x : A) (l : list A) :
  StronglySorted (fun a b => key a <= key b) l ->
  StronglySorted (fun a b => key a <= key b) (insertBy key x l).
Proof.
  induction 1 as [|y l Hl IH Hy]; cbn.
  - constructor; constructor.
  - destruct (key x <=? key y) eqn:E.
    + apply Z.leb_le in E. constructor; [now constructor|].
      constructor; [exact E|].
      revert Hy. apply Forall_impl. intros a Ha. lia.
    + apply Z.leb_gt in E. constructor; [exact IH|].
      apply (@Permutation_Forall _ _ (x :: l)).
      * symmetry. apply insertBy_perm.
      * constructor; [lia | exact Hy].
Qed.

Lemma orderBy_sorted (l : list A) :
  StronglySorted (fun a b => key a <= key b) (orderBy key l).
Proof.
  induction l as [|x l IH]; cbn; [constructor | now apply insertBy_sorted].
Qed.

End Ordering.

(** X15. The list of premium tiers holds every tier of the store once, in
    ascending order of price; the request changes nothing, and it fails (500)
    only when its one statement throws. *)
Theorem premium_tiers_by_price (plan : option nat) (d : DB) :
  snd (getPremiumTiers plan d) = d
  /\ match fst (getPremiumTiers plan d) with
     | Json tiers =>
         Permutation tiers (premiumTiers d)
         /\ StronglySorted
              (fun a b => PremiumTier.price a <= PremiumTier.price b) tiers
     | Refused _ _ => False
     | Failure _ e => plan = Some 0%nat /\ e = DbError
     end.
Proof.
  unfold getPremiumTiers, Act.attempt, Act.bind, Act.await, Act.ret.
  destruct plan as [[|k]|]; cbn [fst snd tick]; split; try reflexivity;
    try (split; reflexivity);
    (split; [apply orderBy_perm | apply orderBy_sorted]).
Qed.

(** X16. The request for one listing changes nothing.  It answers with
    the listing when a row has the id, with 404 when none has, and with
    500 only when its statement throws. *)
Theorem listing_found_or_404 (id : Z) (plan : option nat) (d : DB) :
  snd (getListing id plan d) = d
  /\ match fst (getListing id plan d) with
     | Json l => listingOf id d = Some l
     | Refused c _ => c = 404 /\ listingOf id d = None
     | Failure _ e => plan = Some 0%nat /\ e = DbError
     end
  /\ (plan <> Some 0%nat ->
      fst (getListing id plan d)
      = match listingOf id d with
        | Some l => Json l
        | None => Refused 404 "Listing not found"
        end).
Proof.
  unfold getListing, Act.attempt, Act.bind, Act.await, Act.ret, listingOf.
  destruct plan as [[|k]|]; cbn [fst snd tick];
    rewrite ?hd_error_selectLimit1;
    try (split; [reflexivity|]; split; [split; reflexivity|];
         intros H; now elim H).
  all: destruct (find _ (listings d)) as [l|] eqn:E; cbn [fst snd];
    repeat split; reflexivity.
Qed.

Lemma listing_found_or_404_witness :
  fst (getListing 7 None Sample.store) = Json Sample.phone
  /\ codeOf (fst (getListing 8 None Sample.store)) = 404.
Proof.
  destruct (listing_found_or_404 7 None Sample.store) as [_ [_ H7]].
  destruct (listing_found_or_404 8 None Sample.store) as [_ [_ H8]].
  split.
  - rewrite H7 by discriminate. reflexivity.
  - rewrite H8 by discriminate. reflexivity.
Defined.
(** ** Bookmarks *)

(** What a request for a new bookmark can do; one that fails leaves the
    rows as they are. *)
Lemma postBookmark_outcomes (u : User.t) (l now : Z) (plan : option nat)
    (s : Shelf) :
  let out := postBookmark (Some u) l now plan s in
  (exists e, fst out = Failure "Failed to create bookmark" e
             /\ shelf_db (snd out) = shelf_db s
             /\ bookmarks (snd out) = bookmarks s)
  \/ (fst out = Refused 400 "Already bookmarked"
      /\ snd out = s
      /\ find (isBookmark (User.id u) l) (bookmarks s) <> None)
  \/ (let row := Bookmark.mk (bookmarks_seq s) (User.id u) l (Some now) in
      fst out = Json (Some row)
      /\ snd out = mkShelf (shelf_db s) (bookmarks s ++ [row])
                           (bookmarks_seq s + 1)
      /\ find (isBookmark (User.id u) l) (bookmarks s) = None
      /\ Sql.hasId Listing.id l (listings (shelf_db s)) = true).
Proof.
  unfold postBookmark, Act.attempt, Act.bind, Act.await, Act.ret,
    insertBookmark.
  destruct plan as [[|[|k]]|]; cbn -[Sql.selectLimit1 Sql.hasId isBookmark];
    rewrite ?hd_error_selectLimit1;
    try (left; eexists; repeat split; reflexivity).
  all: destruct (find (isBookmark (User.id u) l) (bookmarks s)) eqn:F;
    cbn -[Sql.hasId];
    try (left; eexists; repeat split; reflexivity);
    try (right; left; repeat split; discriminate).
  all: destruct (Sql.hasId Bookmark.id (bookmarks_seq s) (bookmarks s));
    cbn -[Sql.hasId]; try (left; eexists; repeat split; reflexivity).
  all: destruct (Sql.hasId Listing.id l (listings (shelf_db s)));
    cbn; try (left; eexists; repeat split; reflexivity).
  all: right; right; repeat split.
Qed.

Lemma isBookmark_spec (uid l : Z) (b : Bookmark.t) :
  isBookmark uid l b = true
  <-> Bookmark.userId b = uid /\ Bookmark.listingId b = l.
Proof. unfold isBookmark. now rewrite andb_true_iff, !Z.eqb_eq. Qed.

(** X17. A bookmark is made once: after a request that created a bookmark,
    every further request of the same user for the same listing is answered
    400 "Already bookmarked" (500 if its lookup throws) and leaves the
    store as it is. *)
Theorem bookmark_only_once (u : User.t) (l now now' : Z)
    (plan plan' : option nat) (s : Shelf) (b : Bookmark.t) :
  fst (postBookmark (Some u) l now plan s) = Json (Some b) ->
  let s1 := snd (postBookmark (Some u) l now plan s) in
  snd (postBookmark (Some u) l now' plan' s1) = s1
  /\ (plan' <> Some 0%nat ->
      fst (postBookmark (Some u) l now' plan' s1)
      = Refused 400 "Already bookmarked").
Proof.
  intros H s1.
  assert (Hfind : find (isBookmark (User.id u) l) (bookmarks s1) <> None).
  { subst s1.
    destruct (postBookmark_outcomes u l now plan s)
      as [[e [E _]] | [[E _] | [E [Hs _]]]]; cbv zeta in *;
      try (rewrite E in H; discriminate H).
    rewrite Hs. cbn [bookmarks]. intros N.
    pose proof (find_none _ _ N
                  (Bookmark.mk (bookmarks_seq s) (User.id u) l (Some now))) as K.
    assert (T : isBookmark (User.id u) l
                  (Bookmark.mk (bookmarks_seq s) (User.id u) l (Some now))
                = true) by (apply isBookmark_spec; split; reflexivity).
    rewrite K in T; [discriminate T|]. apply in_or_app. right. now left. }
  clearbody s1.
  unfold postBookmark, Act.attempt, Act.bind, Act.await, Act.ret.
  destruct plan' as [[|k]|]; cbn -[Sql.selectLimit1 isBookmark insertBookmark];
    rewrite ?hd_error_selectLimit1.
  - split; [reflexivity | intros N; now elim N].
  - destruct (find (isBookmark (User.id u) l) (bookmarks s1));
      [split; reflexivity | now elim Hfind].
  - destruct (find (isBookmark (User.id u) l) (bookmarks s1));
      [split; reflexivity | now elim Hfind].
Qed.

(** A shelf over the sample store. *)
Lemma bookmark_only_once_witness :
  let s := mkShelf Sample.store [] 1 in
  let s1 := snd (postBookmark (Some Sample.seller) 7 100 None s) in
  map Bookmark.listingId (bookmarks s1) = [7]
  /\ postBookmark (Some Sample.seller) 7 200 None s1
     = (Refused 400 "Already bookmarked", s1).
Proof.
  cbv zeta. split; [reflexivity|].
  destruct (bookmark_only_once Sample.seller 7 100 200 None None
              (mkShelf Sample.store [] 1) _ eq_refl) as [H1 H2].
  rewrite (surjective_pairing (postBookmark _ _ _ _ _)).
  rewrite H1, H2 by discriminate. reflexivity.
Defined.

Lemma deleteBookmark_run (u : User.t) (l : Z) (plan : option nat) (s : Shelf) :
  deleteBookmark (Some u) l plan s
  = match plan with
    | Some 0%nat => (Failure "Failed to remove bookmark" DbError, s)
    | _ => (Json "Bookmark removed",
            mkShelf (shelf_db s)
              (filter (fun b => negb (isBookmark (User.id u) l b)) (bookmarks s))
              (bookmarks_seq s))
    end.
Proof.
  unfold deleteBookmark, Act.attempt, Act.bind, Act.await, Act.ret.
  destruct plan as [[|k]|]; reflexivity.
Qed.




(** X19. Removing a bookmark is answered 200 whether or not there was
    one.  Afterwards the user holds no bookmark of the listing; the
    bookmarks of other users and of other listings are as before, and so
    are the listings; removing again changes nothing more. *)
Theorem remove_bookmark (u : User.t) (l : Z) (plan : option nat) (s : Shelf) :
  plan <> Some 0%nat ->
  let out := deleteBookmark (Some u) l plan s in
  fst out = Json "Bookmark removed"
  /\ find (isBookmark (User.id u) l) (bookmarks (snd out)) = None
  /\ bookmarks (snd out)
     = filter (fun b => negb (isBookmark (User.id u) l b)) (bookmarks s)
  /\ shelf_db (snd out) = shelf_db s
  /\ snd (deleteBookmark (Some u) l plan (snd out)) = snd out.
Proof.
  intros Hplan out. subst out. rewrite !deleteBookmark_run.
  assert (Hnone : forall bs,
             find (isBookmark (User.id u) l)
                  (filter (fun b => negb (isBookmark (User.id u) l b)) bs)
             = None).
  { intros bs. induction bs as [|b bs IH]; cbn; [reflexivity|].
    destruct (isBookmark (User.id u) l b) eqn:E; cbn; [exact IH|].
    now rewrite E. }
  assert (Hidem : forall bs,
             filter (fun b => negb (isBookmark (User.id u) l b))
                    (filter (fun b => negb (isBookmark (User.id u) l b)) bs)
             = filter (fun b => negb (isBookmark (User.id u) l b)) bs).
  { intros bs. induction bs as [|b bs IH]; cbn; [reflexivity|].
    destruct (isBookmark (User.id u) l b) eqn:E; cbn; [exact IH|].
    rewrite E. cbn. now rewrite IH. }
  destruct plan as [[|k]|]; [now elim Hplan | |];
    cbn [fst snd bookmarks shelf_db bookmarks_seq];
    repeat split; try apply Hnone; now rewrite Hidem.
Qed.

Lemma remove_bookmark_witness :
  let s1 := snd (postBookmark (Some Sample.seller) 7 100 None
                   (mkShelf Sample.store [] 1)) in
  bookmarks (snd (deleteBookmark (Some Sample.seller) 7 None s1)) = []
  /\ fst (deleteBookmark (Some Sample.admin) 7 None s1)
     = Json "Bookmark removed"
  /\ bookmarks (snd (deleteBookmark (Some Sample.admin) 7 None s1))
     = bookmarks s1.
Proof.
  cbv zeta. split; [reflexivity|].
  destruct (remove_bookmark Sample.admin 7 None
              (snd (postBookmark (Some Sample.seller) 7 100 None
                      (mkShelf Sample.store [] 1)))
              ltac:(discriminate)) as [H1 [_ [H3 _]]].
  split; [exact H1 | rewrite H3; reflexivity].
Defined.

(** X20. The list of a user's bookmarks holds exactly the listings the
    user has bookmarked, each with the id of its bookmark; a bookmark
    whose listing row is gone is left out.  So a listing shows up after a
    request that bookmarked it and no longer after its removal. *)
Theorem bookmarks_listed (u : User.t) (plan : option nat) (s : Shelf) :
  plan <> Some 0%nat ->
  exists rows,
    getBookmarks (Some u) plan s = (Json rows, s)
    /\ (forall l bid,
          In (l, bid) rows
          <-> exists b, In b (bookmarks s)
                        /\ Bookmark.userId b = User.id u
                        /\ Bookmark.id b = bid
                        /\ In l (listings (shelf_db s))
                        /\ Listing.id l = Bookmark.listingId b)
    /\ (forall l bid listingId,
          In (l, bid)
             (bookmarkedListings (User.id u)
                (snd (deleteBookmark (Some u) listingId plan s))) ->
          Listing.id l <> listingId).
Proof.
  intros Hplan. exists (bookmarkedListings (User.id u) s).
  split; [|split].
  - unfold getBookmarks, Act.attempt, Act.bind, Act.await, Act.ret.
    destruct plan as [[|k]|]; [now elim Hplan | reflexivity | reflexivity].
  - intros l bid. unfold bookmarkedListings. rewrite in_flat_map. split.
    + intros [b [Hb Hl]]. apply filter_In in Hb. destruct Hb as [Hb Eu].
      apply in_map_iff in Hl. destruct Hl as [l' [E Hl']].
      injection E as -> <-. apply filter_In in Hl'. destruct Hl' as [Hl' El].
      exists b. apply Z.eqb_eq in Eu. apply Z.eqb_eq in El. tauto.
    + intros [b [Hb [Eu [Eb [Hl El]]]]]. exists b. split.
      * apply filter_In. split; [exact Hb | now apply Z.eqb_eq].
      * apply in_map_iff. exists l. split; [now rewrite Eb|].
        apply filter_In. split; [exact Hl | now apply Z.eqb_eq].
  - intros l bid listingId Hin E.
    rewrite deleteBookmark_run in Hin.
    assert (Hs : snd (match plan with
                      | Some 0%nat =>
                          (Failure (B := string) "Failed to remove bookmark"
                                   DbError, s)
                      | _ =>
                          (Json "Bookmark removed",
                           mkShelf (shelf_db s)
                             (filter (fun b => negb (isBookmark (User.id u)
                                                                listingId b))
                                     (bookmarks s))
                             (bookmarks_seq s))
                      end)
                 = mkShelf (shelf_db s)
                     (filter (fun b => negb (isBookmark (User.id u) listingId b))
                             (bookmarks s))
                     (bookmarks_seq s))
      by (destruct plan as [[|k]|]; [now elim Hplan | reflexivity | reflexivity]).
    rewrite Hs in Hin. unfold bookmarkedListings in Hin.
    cbn [bookmarks shelf_db] in Hin.
    apply in_flat_map in Hin. destruct Hin as [b [Hb Hl]].
    apply filter_In in Hb. destruct Hb as [Hb Eu].
    apply filter_In in Hb. destruct Hb as [_ Hnot].
    apply in_map_iff in Hl. destruct Hl as [l' [E' Hl']].
    injection E' as -> _. apply filter_In in Hl'. destruct Hl' as [_ El].
    apply Z.eqb_eq in Eu. apply Z.eqb_eq in El.
    assert (T : isBookmark (User.id u) listingId b = true)
      by (apply isBookmark_spec; split; congruence).
    rewrite T in Hnot. discriminate Hnot.
Qed.

Lemma bookmarks_listed_witness :
  let s1 := snd (postBookmark (Some Sample.seller) 7 100 None
                   (mkShelf Sample.store [] 1)) in
  exists rows,
    getBookmarks (Some Sample.seller) None s1 = (Json rows, s1)
    /\ In (Sample.phone, 1) rows.
Proof.
  cbv zeta.
  destruct (bookmarks_listed Sample.seller None
              (snd (postBookmark (Some Sample.seller) 7 100 None
                      (mkShelf Sample.store [] 1)))
              ltac:(discriminate)) as [rows [H [Hin _]]].
  exists rows. split; [exact H|].
  apply Hin. exists (Bookmark.mk 1 2 7 (Some 100)).
  repeat split; now left.
Defined.
(** ** The socket map *)

Module SocketFacts.
Import Sockets.

Lemma get_set_same (u : Z) (s : string) (m : UserSockets) :
  get u (set u s m) = Some s.
Proof.
  unfold get. induction m as [|[k v] m IH]; cbn.
  - now rewrite Z.eqb_refl.
  - destruct (k =? u) eqn:E; cbn; rewrite E; [reflexivity | exact IH].
Qed.

Lemma get_set_other (u u' : Z) (s : string) (m : UserSockets) :
  u' <> u -> get u' (set u s m) = get u' m.
Proof.
  intros Hne. unfold get. induction m as [|[k v] m IH]; cbn.
  - apply Z.eqb_neq in Hne. rewrite Z.eqb_sym. now rewrite Hne.
  - destruct (k =? u) eqn:E; cbn.
    + apply Z.eqb_eq in E. subst k.
      assert (N : (u =? u') = false) by (apply Z.eqb_neq; congruence).
      now rewrite N.
    + destruct (k =? u'); [reflexivity | exact IH].
Qed.

Lemma set_keys (u : Z) (s : string) (m : UserSockets) (x : Z) :
  In x (map fst (set u s m)) <-> x = u \/ In x (map fst m).
Proof.
  induction m as [|[k v] m IH]; cbn; [intuition congruence|].
  destruct (k =? u) eqn:E; cbn.
  - apply Z.eqb_eq in E. subst k. intuition congruence.
  - rewrite IH. intuition congruence.
Qed.

Lemma set_NoDup (u : Z) (s : string) (m : UserSockets) :
  NoDup (map fst m) -> NoDup (map fst (set u s m)).
Proof.
  induction m as [|[k v] m IH]; cbn; intros H.
  - constructor; [intros [] | constructor].
  - inversion H as [|x xs Hnot Hnd]; subst.
    destruct (k =? u) eqn:E; cbn; [now constructor|].
    constructor; [|now apply IH].
    rewrite set_keys. intros [->|Hin]; [|contradiction].
    rewrite Z.eqb_refl in E. discriminate E.
Qed.

Lemma delete_keys (u : Z) (m : UserSockets) (x : Z) :
  In x (map fst (delete u m)) -> In x (map fst m).
Proof.
  induction m as [|[k v] m IH]; cbn; [tauto|].
  destruct (k =? u); cbn; [tauto|]. intros [H|H]; auto.
Qed.

Lemma delete_NoDup (u : Z) (m : UserSockets) :
  NoDup (map fst m) -> NoDup (map fst (delete u m)).
Proof.
  induction m as [|[k v] m IH]; cbn; intros H; [constructor|].
  inversion H as [|x xs Hnot Hnd]; subst.
  destruct (k =? u); cbn; [exact Hnd|].
  constructor; [|now apply IH].
  intros Hin. apply Hnot. now apply delete_keys in Hin.
Qed.

Lemma on_NoDup (sid : string) (e : Event) (m : UserSockets) :
  NoDup (map fst m) -> NoDup (map fst (fst (on sid e m))).
Proof.
  intros H. destruct e as [u | r msg | l |]; cbn.
  - now apply set_NoDup.
  - now destruct (get r m).
  - exact H.
  - unfold disconnect.
    destruct (find _ m) as [[u v]|]; [now apply delete_NoDup | exact H].
Qed.

(** The keys of the map stay distinct, as those of a [Map] are. *)
Lemma run_NoDup (trace : list (string * Event)) (m : UserSockets) :
  NoDup (map fst m) -> NoDup (map fst (fst (run trace m))).
Proof.
  revert m. induction trace as [|[sid e] trace IH]; intros m H; [exact H|].
  cbn [run].
  pose proof (on_NoDup sid e m H) as H1.
  destruct (on sid e m) as [m1 out1]. cbn [fst] in H1.
  specialize (IH m1 H1).
  destruct (run trace m1) as [m2 out2]. exact IH.
Qed.

Lemma delete_entry (u : Z) (sid : string) (m : UserSockets) :
  NoDup (map fst m) -> In (u, sid) m ->
  ofOthers sid (delete u m) = ofOthers sid m
  /\ S (List.length (ofSocket sid (delete u m)))
     = List.length (ofSocket sid m).
Proof.
  unfold ofOthers, ofSocket.
  induction m as [|[k v] m IH]; intros Hnd Hin; [destruct Hin|].
  cbn in Hnd. inversion Hnd as [|x xs Hnot Hnd']; subst.
  cbn [delete].
  destruct (k =? u) eqn:E.
  - apply Z.eqb_eq in E. subst k.
    assert (v = sid).
    { destruct Hin as [Hin|Hin]; [congruence|].
      elim Hnot. apply in_map_iff. now exists (u, sid). }
    subst v. cbn. rewrite String.eqb_refl. cbn. split; reflexivity.
  - destruct Hin as [Hin|Hin];
      [injection Hin as -> _; rewrite Z.eqb_refl in E; discriminate E|].
    destruct (IH Hnd' Hin) as [IH1 IH2].
    cbn. destruct (String.eqb v sid); cbn; rewrite ?IH1, <- ?IH2;
      split; reflexivity.
Qed.

End SocketFacts.

(** X21. Nothing checks an [authenticate]: whatever socket held a user id
    before, after a socket has sent [authenticate] with that id the id maps
    to this socket, every private message to the id is emitted to this
    socket alone, and the ids of other users map as before. *)
Theorem authenticate_takes_over (m : Sockets.UserSockets) (socketId : string)
    (userId : Z) :
  let m1 := fst (Sockets.on socketId (Sockets.Authenticate userId) m) in
  Sockets.get userId m1 = Some socketId
  /\ (forall sender message,
        Sockets.on sender (Sockets.PrivateMessage userId message) m1
        = (m1, [Sockets.ToSocket socketId "new_message" message]))
  /\ (forall other, other <> userId ->
        Sockets.get other m1 = Sockets.get other m).
Proof.
  cbn. split; [apply SocketFacts.get_set_same|]. split.
  - intros sender message. now rewrite SocketFacts.get_set_same.
  - intros other H. now apply SocketFacts.get_set_other.
Qed.

Lemma authenticate_takes_over_witness :
  let m := fst (Sockets.run [("s1", Sockets.Authenticate 5)] []) in
  let m1 := fst (Sockets.on "s2" (Sockets.Authenticate 5) m) in
  Sockets.get 5 m = Some "s1"
  /\ Sockets.on "s1" (Sockets.PrivateMessage 5 "hello") m1
     = (m1, [Sockets.ToSocket "s2" "new_message" "hello"]).
Proof.
  cbv zeta. split; [reflexivity|].
  exact (proj1 (proj2 (authenticate_takes_over
                         (fst (Sockets.run [("s1", Sockets.Authenticate 5)] []))
                         "s2" 5)) "s1" "hello").
Defined.

(** X22. In every state the server reaches, the disconnect of a socket
    removes one entry of that socket, the first, and no other entry: a
    socket that authenticated under several user ids leaves the others
    behind, mapped to the closed socket, and the entries of other sockets
    stay, also those that took over an id the socket once held. *)
Theorem disconnect_removes_one_entry (trace : list (string * Sockets.Event))
    (socketId : string) :
  let m := fst (Sockets.run trace []) in
  let m' := fst (Sockets.on socketId Sockets.Disconnect m) in
  Sockets.ofOthers socketId m' = Sockets.ofOthers socketId m
  /\ List.length (Sockets.ofSocket socketId m')
     = pred (List.length (Sockets.ofSocket socketId m))
  /\ NoDup (map fst m').
Proof.
  intros m m'. subst m'.
  assert (Hnd : NoDup (map fst m))
    by (apply SocketFacts.run_NoDup; constructor).
  clearbody m. cbn [Sockets.on fst]. unfold Sockets.disconnect.
  destruct (find (fun e => String.eqb (snd e) socketId) m) as [[u v]|] eqn:F.
  - apply find_some in F. destruct F as [Hin Ev].
    cbn in Ev. apply String.eqb_eq in Ev. subst v.
    destruct (SocketFacts.delete_entry u socketId m Hnd Hin) as [H1 H2].
    split; [exact H1|]. split; [rewrite <- H2; reflexivity|].
    now apply SocketFacts.delete_NoDup.
  - split; [reflexivity|]. split; [|exact Hnd].
    assert (E : Sockets.ofSocket socketId m = []).
    { unfold Sockets.ofSocket.
      destruct (filter _ m) as [|x xs] eqn:G; [reflexivity|].
      assert (Hx : In x (filter (fun e => String.eqb (snd e) socketId) m))
        by (rewrite G; now left).
      apply filter_In in Hx. destruct Hx as [Hx Ex].
      pose proof (find_none _ _ F x Hx) as N. cbn in N. congruence. }
    rewrite E. reflexivity.
Qed.

Lemma disconnect_removes_one_entry_witness :
  let trace :=
    [ ("s1", Sockets.Authenticate 1); ("s1", Sockets.Authenticate 2) ] in
  let m' := fst (Sockets.on "s1" Sockets.Disconnect
                   (fst (Sockets.run trace []))) in
  m' = [(2, "s1")]
  /\ List.length (Sockets.ofSocket "s1" m') = 1%nat.
Proof.
  cbv zeta. split; [reflexivity|].
  destruct (disconnect_removes_one_entry
              [ ("s1", Sockets.Authenticate 1); ("s1", Sockets.Authenticate 2) ]
              "s1") as [_ [H _]].
  cbv zeta in H. rewrite H. reflexivity.
Defined.
Lemma socket_values (sid : string) (e : Sockets.Event)
    (m : Sockets.UserSockets) (x : string) :
  In x (map snd (fst (Sockets.on sid e m))) ->
  In x (map snd m)
  \/ (x = sid /\ exists u, e = Sockets.Authenticate u).
Proof.
  destruct e as [u | r msg | l |]; cbn.
  - induction m as [|[k v] m IH]; cbn.
    + intros [<-|[]]. right. split; [reflexivity | now exists u].
    + destruct (k =? u); cbn.
      * intros [<-|H]; [right; split; [reflexivity | now exists u] | auto].
      * intros [<-|H]; [auto|]. destruct (IH H) as [H'|H']; auto.
  - destruct (Sockets.get r m); auto.
  - auto.
  - unfold Sockets.disconnect.
    destruct (find _ m) as [[u v]|]; [|auto].
    intros H. left. clear - H.
    induction m as [|[k w] m IH]; cbn in *; [exact H|].
    destruct (k =? u); cbn in *; [auto|].
    destruct H as [H|H]; auto.
Qed.

Lemma emitted_to (trace : list (string * Sockets.Event))
    (m : Sockets.UserSockets) (sid event payload : string) :
  In (Sockets.ToSocket sid event payload) (snd (Sockets.run trace m)) ->
  event = "new_message"
  /\ (In sid (Sockets.authenticated trace) \/ In sid (map snd m)).
Proof.
  revert m. induction trace as [|[s e] trace IH]; intros m; [intros []|].
  cbn [Sockets.run].
  pose proof (socket_values s e m) as V.
  destruct (Sockets.on s e m) as [m1 out1] eqn:On. cbn [fst] in V.
  specialize (IH m1).
  destruct (Sockets.run trace m1) as [m2 out2]. cbn [snd] in *.
  intros H. apply in_app_or in H. destruct H as [H|H].
  - destruct e as [u | r msg | l |]; cbn in On.
    + injection On as <- <-. destruct H.
    + unfold Sockets.get in On.
      destruct (find (fun e => fst e =? r) m) as [[k v]|] eqn:F;
        cbn in On; injection On as <- <-; [|destruct H].
      destruct H as [H|[]]. injection H as <- <- <-.
      split; [reflexivity|]. right.
      apply find_some in F. destruct F as [F _].
      apply in_map_iff. now exists (k, v).
    + injection On as <- <-. destruct H as [H|[]]. discriminate H.
    + injection On as <- <-. destruct H.
  - destruct (IH H) as [Ev [Hin|Hin]]; split; try exact Ev.
    + left. destruct e; cbn; auto.
    + destruct (V sid Hin) as [Hm|[-> [u ->]]]; [now right|].
      left. cbn. now left.
Qed.

(** X23. From the start of the server on, whatever the sockets send, a
    message to one socket is a [new_message] and goes to a socket that has
    sent [authenticate] before; it may have disconnected since. *)
Theorem messages_reach_authenticated_sockets
    (trace : list (string * Sockets.Event)) (socketId event payload : string) :
  In (Sockets.ToSocket socketId event payload) (snd (Sockets.run trace [])) ->
  event = "new_message" /\ In socketId (Sockets.authenticated trace).
Proof.
  intros H. destruct (emitted_to trace [] socketId event payload H)
    as [Ev [Hin|[]]].
  split; assumption.
Qed.

Lemma messages_reach_authenticated_sockets_witness :
  let trace :=
    [ ("s1", Sockets.Authenticate 1); ("s1", Sockets.Authenticate 2);
      ("s1", Sockets.Disconnect); ("s2", Sockets.PrivateMessage 2 "yo") ] in
  snd (Sockets.run trace []) = [Sockets.ToSocket "s1" "new_message" "yo"]
  /\ In "s1" (Sockets.authenticated trace).
Proof.
  cbv zeta. split; [reflexivity|].
  apply (messages_reach_authenticated_sockets
           [ ("s1", Sockets.Authenticate 1); ("s1", Sockets.Authenticate 2);
             ("s1", Sockets.Disconnect); ("s2", Sockets.PrivateMessage 2 "yo") ]
           "s1" "new_message" "yo").
  now left.
Defined.

(** ** The name of an uploaded file *)

Lemma split_not_nil (sep : Ascii.ascii) (s : string) :
  Storage.split sep s <> [].
Proof.
  destruct s as [|c r]; cbn; [discriminate|].
  destruct (Ascii.eqb c sep); [discriminate|].
  destruct (Storage.split sep r); discriminate.
Qed.

(** [split] cuts at every separator and nowhere else. *)
Lemma join_split (sep : Ascii.ascii) (s : string) :
  join sep (Storage.split sep s) = s
  /\ Forall (fun p => Storage.occurs sep p = false) (Storage.split sep s).
Proof.
  induction s as [|c r [IHj IHf]]; cbn [Storage.split].
  - split; [reflexivity | repeat constructor].
  - destruct (Ascii.eqb c sep) eqn:E.
    + apply Ascii.eqb_eq in E. subst c. split.
      * pose proof (split_not_nil sep r) as N.
        destruct (Storage.split sep r) as [|h t] eqn:S; [now elim N|].
        cbn [join]. cbn [join] in IHj. now rewrite IHj.
      * constructor; [reflexivity | exact IHf].
    + pose proof (split_not_nil sep r) as N.
      destruct (Storage.split sep r) as [|h t] eqn:S; [now elim N|].
      split.
      * rewrite <- IHj. destruct t; reflexivity.
      * inversion IHf as [|x xs Hh Ht]; subst.
        constructor; [cbn; now rewrite E, Hh | exact Ht].
Qed.

Lemma append_assoc_string (a b c : string) :
  ((a ++ b) ++ c)%string = (a ++ (b ++ c))%string.
Proof. induction a as [|x a IH]; cbn; [reflexivity | now rewrite IH]. Qed.

Lemma join_last (sep : Ascii.ascii) (init : list string) (x : string) :
  init <> [] ->
  join sep (init ++ [x]) = (join sep init ++ String sep x)%string.
Proof.
  induction init as [|p init IH]; intros H; [now elim H|].
  destruct init as [|q init]; [reflexivity|].
  change (join sep ((p :: q :: init) ++ [x]))
    with (p ++ String sep (join sep ((q :: init) ++ [x])))%string.
  rewrite IH by discriminate.
  change (join sep (p :: q :: init))
    with (p ++ String sep (join sep (q :: init)))%string.
  rewrite append_assoc_string. reflexivity.
Qed.

Lemma occurs_append (c : Ascii.ascii) (a b : string) :
  Storage.occurs c (a ++ b) = Storage.occurs c a || Storage.occurs c b.
Proof.
  induction a as [|x a IH]; cbn; [reflexivity|].
  rewrite IH. now rewrite orb_assoc.
Qed.

(** X24. The extension under which [uploadFile] stores a file is the part
    of the original name after its last dot, and it has no dot; a name
    without a dot is taken whole as the extension, and a name that ends in
    a dot gives the empty one.  The stored path is the folder, a slash, the
    random id, a dot and that extension. *)
Theorem stored_file_extension (randomUUID originalname folder : string) :
  let ext := Storage.fileExt originalname in
  Storage.occurs Storage.dot ext = false
  /\ (Storage.occurs Storage.dot originalname = false -> ext = originalname)
  /\ (Storage.occurs Storage.dot originalname = true ->
      exists stem, originalname = (stem ++ "." ++ ext)%string)
  /\ Storage.filePath randomUUID originalname folder
     = (folder ++ "/" ++ randomUUID ++ "." ++ ext)%string.
Proof.
  intros ext. subst ext. unfold Storage.fileExt.
  destruct (join_split Storage.dot originalname) as [Hj Hf].
  pose proof (split_not_nil Storage.dot originalname) as N.
  set (parts := Storage.split Storage.dot originalname) in *.
  destruct (exists_last N) as [init [ext E]].
  rewrite E in *. rewrite last_last.
  assert (Hext : Storage.occurs Storage.dot ext = false).
  { rewrite Forall_forall in Hf. apply Hf. apply in_or_app. right. now left. }
  split; [exact Hext|].
  destruct init as [|p init].
  - cbn in Hj. subst ext. repeat split; try reflexivity.
    + intros H. congruence.
    + unfold Storage.filePath, Storage.fileExt. fold parts.
      rewrite E. reflexivity.
  - rewrite join_last in Hj by discriminate.
    split; [|split].
    + intros H. rewrite <- Hj in H. rewrite occurs_append in H.
      cbn in H. rewrite orb_true_r in H. discriminate H.
    + intros _. exists (join Storage.dot (p :: init)). now rewrite <- Hj.
    + unfold Storage.filePath, Storage.fileExt. fold parts.
      rewrite E, last_last. reflexivity.
Qed.

Lemma stored_file_extension_witness :
  Storage.fileExt "photo.final.png" = "png"
  /\ Storage.fileExt "README" = "README"
  /\ Storage.filePath "0a1b" "README" "listings" = "listings/0a1b.README".
Proof.
  destruct (stored_file_extension "0a1b" "README" "listings")
    as [_ [H2 [_ H4]]].
  cbv zeta in *.
  split; [reflexivity|]. split; [apply H2; reflexivity|].
  rewrite H4, (H2 eq_refl). reflexivity.
Defined.
